(** * Smile-scoring backend ([smile_cam/backend/app.py])

    A shallow embedding of the scoring heuristic [calculate_smile_score] and of
    the [/predict] handler [predict_smile], with the properties stated for them.

    Python floats appear twice.  The function is written once, over an
    interface [PyFloat] of the float operations it uses, and the interface
    has two implementations:
    - [binary64]: IEEE 754 double precision, through the kernel's primitive
      floats; this is what CPython computes;
    - [exactQ]: exact rational arithmetic, the idealisation in which the
      algebraic properties of the heuristic are stated. *)

From Stdlib Require Import ZArith QArith Qround Qpower Lqa Lia Floats Ascii.
From stdpp Require Import base option list strings gmap.

Set Warnings "-register-all".
#[local] Open Scope Z_scope.

(** ** Python exceptions and fallible computations *)

Inductive ExcClass :=
| IndexError | KeyError | TypeError | AttributeError | ValueError | LibraryError.

(** An instance of (a subclass of) [Exception]; [exc_msg] is what [str(e)]
    returns. *)
Record PyExc := mkExc { exc_class : ExcClass; exc_msg : string }.

Inductive result (A : Type) :=
| Ok (a : A)
| Raise (e : PyExc).
Arguments Ok {A} a.
Arguments Raise {A} e.

#[global] Instance result_ret : MRet result := fun A a => Ok a.
#[global] Instance result_bind : MBind result := fun A B f m =>
  match m with
  | Ok a => f a
  | Raise e => Raise e
  end.

Definition raises {A} (m : result A) : Prop := exists e, m = Raise e.

(** [l[i]] for a Python list and a non-negative index. *)
Definition index {A} (l : list A) (i : nat) : result A :=
  match l !! i with
  | Some a => Ok a
  | None => Raise (mkExc IndexError "list index out of range")
  end.

(** ** The float operations the scorer uses *)

Class PyFloat (F : Type) := {
  (** the float denoted by a decimal literal, or by an int operand of a
      mixed int/float operation *)
  lit : Q -> F;
  fadd : F -> F -> F;
  fsub : F -> F -> F;
  fdiv : F -> F -> F;
  (** [a > b] *)
  fgt : F -> F -> bool;
  (** [sum(ys)] for a sequence of floats (int start value [0]) *)
  fsum : list F -> F;
  (** [round(a, 3)] *)
  round3 : F -> F;
}.

Declare Scope py_scope.
Delimit Scope py_scope with py.
Notation "a + b" := (fadd a b) : py_scope.
Notation "a - b" := (fsub a b) : py_scope.
Notation "a / b" := (fdiv a b) : py_scope.
Notation "a >? b" := (fgt a b) (at level 70) : py_scope.

Section Builtins.
Context {F : Type} {PF : PyFloat F}.

(** [max(a, b)]: the first argument unless the second is greater. *)
Definition py_max (a b : F) : F := if (b >? a)%py then b else a.

(** [min(a, b)]: the first argument unless the second is smaller. *)
Definition py_min (a b : F) : F := if (a >? b)%py then b else a.
End Builtins.

(** ** Rounding to a multiple of [1/1000]

    [round(x, 3)] rounds the exact value of [x] to the nearest multiple of
    [0.001], a tie going to the even multiple, and returns the float nearest
    to that decimal. *)

(** Nearest integer, ties to even. *)
Definition round_half_even (q : Q) : Z :=
  let f := Qfloor q in
  match ((q - inject_Z f) ?= (1 # 2))%Q with
  | Lt => f
  | Gt => f + 1
  | Eq => if Z.even f then f else f + 1
  end.

Definition thousandths (q : Q) : Z := round_half_even (q * 1000).

(** ** Exact rational arithmetic *)

Definition Qgt_bool (a b : Q) : bool := negb (Qle_bool a b).

#[global] Instance exactQ : PyFloat Q := {|
  lit q := q;
  fadd := Qplus;
  fsub := Qminus;
  fdiv := Qdiv;
  fgt := Qgt_bool;
  fsum ys := fold_left Qplus ys 0%Q;
  round3 q := Qred (thousandths q # 1000);
|}.

(** ** IEEE 754 binary64 *)

Module B64.
#[local] Open Scope float_scope.

(** The float nearest to the integer [z] (exact below [2^53]). *)
Definition of_Z (z : Z) : float :=
  SF2Prim (binary_normalize prec emax z 0 false).

(** A decimal literal [a/b]: numerator and denominator are exact floats for
    the literals of this program, and the division rounds to nearest. *)
Definition of_Q (q : Q) : float := of_Z (Qnum q) / of_Z (Zpos (Qden q)).

(** The exact value of a finite float. *)
Definition exact (s : bool) (m : positive) (e : Z) : Q :=
  (if s then -1 else 1) * inject_Z (Zpos m) * (2 ^ e).

(** The exact value of a float; zeros are 0, and infinities and NaN, which
    have no value, are given 0. *)
Definition value (f : spec_float) : Q :=
  match f with
  | S754_finite s m e => exact s m e
  | _ => 0
  end.

Definition to_Q (x : float) : Q := value (Prim2SF x).

(** Zeros and finite floats, as opposed to infinities and NaN. *)
Definition sf_finite (f : spec_float) : bool :=
  match f with
  | S754_zero _ | S754_finite _ _ _ => true
  | _ => false
  end.

(** [x] is the float [c] or one of its two neighbours. *)
Definition within_one_ulp (x c : float) : Prop :=
  x = next_down c \/ x = c \/ x = next_up c.

(** The float nearest to [k/1000]; a zero takes the sign [s]. *)
Definition of_thousandths (s : bool) (k : Z) : float :=
  match k with
  | Z0 => if s then -0 else 0
  | Zpos p =>
      SF2Prim (SFdiv prec emax (S754_finite false p 0) (S754_finite false 1000 0))
  | Zneg p =>
      SF2Prim (SFdiv prec emax (S754_finite true p 0) (S754_finite false 1000 0))
  end.

(** [round(x, 3)]: zeros, infinities and NaN are returned as they are. *)
Definition round3 (x : float) : float :=
  match Prim2SF x with
  | S754_finite s m e => of_thousandths s (thousandths (exact s m e))
  | _ => x
  end.

(** [k] thousandths make a float between 0 and 1, the quotient of the float
    [k] by the float 1000. *)
Definition thousandth_ok (k : Z) : bool :=
  (0 <=? of_thousandths false k) && (of_thousandths false k <=? 1)
  && Leibniz.eqb (of_thousandths false k) (of_Z k / 1000).

(** [sum] as CPython up to 3.11 computes it: a left fold from [0]. *)
Definition sum_left (ys : list float) : float := fold_left add ys 0.

(** [sum] as CPython from 3.12 computes it for floats: Neumaier's
    compensated summation, the compensation added at the end when it is
    non-zero and finite. *)
Definition cs_add (st : float * float) (y : float) : float * float :=
  let '(total, c) := st in
  let t := total + y in
  let c' := if abs y <=? abs total then c + ((total - t) + y)
            else c + ((y - t) + total) in
  (t, c').

Definition is_finite (c : float) : bool := abs c <? infinity.

Definition sum_compensated (ys : list float) : float :=
  let '(total, c) := fold_left cs_add ys (0, 0) in
  if negb (c =? 0) && is_finite c then total + c else total.
End B64.

(** The instance is parametric in the summation CPython uses. *)
Definition binary64 (sum : list float -> float) : PyFloat float := {|
  lit := B64.of_Q;
  fadd := PrimFloat.add;
  fsub := PrimFloat.sub;
  fdiv := PrimFloat.div;
  fgt a b := PrimFloat.ltb b a;
  fsum := sum;
  round3 := B64.round3;
|}.

(** ** Landmarks and the detector's result *)

Module Landmark.
Record t (F : Type) := mk { x : F; y : F; z : F }.
Arguments mk {F} x y z.
Arguments x {F} _.
Arguments y {F} _.
Arguments z {F} _.
End Landmark.

(** [face_landmarks] is a list with one landmark list per detected face;
    [None] stands for an absent ([None]) attribute. *)
Record FaceLandmarkerResult (F : Type) := mkResult {
  face_landmarks : option (list (list (Landmark.t F)));
}.
Arguments mkResult {F} _.
Arguments face_landmarks {F} _.

Definition MOUTH_CORNERS_LEFT : nat := 61.
Definition MOUTH_CORNERS_RIGHT : nat := 291.
Definition MOUTH_UPPER_POINTS : list nat :=
  [61; 185; 40; 39; 37; 0; 267; 269; 270; 409; 291]%nat.
Definition MOUTH_LOWER_POINTS : list nat :=
  [146; 91; 181; 84; 17; 314; 405; 321; 375]%nat.

(** ** The scorer *)

Section Scorer.
Context {F : Type} {PF : PyFloat F}.
#[local] Open Scope py_scope.

(** [landmarks[i].y for i in idx], evaluated left to right. *)
Fixpoint ys_at (landmarks : list (Landmark.t F)) (idx : list nat)
  : result (list F) :=
  match idx with
  | [] => Ok []
  | i :: idx' =>
      p ← index landmarks i;
      ys ← ys_at landmarks idx';
      Ok (Landmark.y p :: ys)
  end.

(** [sum(landmarks[i].y for i in points[:5]) / 5] *)
Definition mean5 (landmarks : list (Landmark.t F)) (points : list nat)
  : result F :=
  ys ← ys_at landmarks (take 5 points);
  Ok (fsum ys / lit 5).

Definition upper_y (landmarks : list (Landmark.t F)) : result F :=
  mean5 landmarks MOUTH_UPPER_POINTS.

Definition lower_y (landmarks : list (Landmark.t F)) : result F :=
  mean5 landmarks MOUTH_LOWER_POINTS.

Definition center_y (upper lower : F) : F := (upper + lower) / lit 2.

Definition mouth_height (upper lower : F) : F := lower - upper.

(** The value before the final [round]. *)
Definition raw_score (center left_y right_y : F) : F :=
  let left_elevation := py_max (lit 0) (center - left_y) in
  let right_elevation := py_max (lit 0) (center - right_y) in
  let avg_elevation := (left_elevation + right_elevation) / lit 2 in
  py_min (lit 1.0) (py_max (lit 0.0) ((avg_elevation - lit 0.005) / lit 0.035)).

Definition calculate_smile_score (face_landmarker_result : FaceLandmarkerResult F)
  : result F :=
  match face_landmarks face_landmarker_result with
  | None | Some [] => Ok (lit 0.0)
  | Some (landmarks :: _) =>
      left_corner ← index landmarks MOUTH_CORNERS_LEFT;
      right_corner ← index landmarks MOUTH_CORNERS_RIGHT;
      upper ← upper_y landmarks;
      lower ← lower_y landmarks;
      if mouth_height upper lower >? lit 0.08 then Ok (lit 0.0)
      else
        let score :=
          raw_score (center_y upper lower)
                    (Landmark.y left_corner) (Landmark.y right_corner) in
        Ok (round3 score)
  end.

(** Lines 109-110 of [predict_smile]: the score and the decision. *)
Definition smile_result (detection_result : FaceLandmarkerResult F)
  : result (F * bool) :=
  score ← calculate_smile_score detection_result;
  let smile_detected := score >? lit 0.5 in
  Ok (score, smile_detected).
End Scorer.

(** ** The [/predict] handler *)

(** The value [request.get_json()] returns. *)
Inductive json :=
| JNull
| JBool (b : bool)
| JInt (n : Z)
| JFloat (q : Q)
| JStr (s : string)
| JArr (l : list json)
| JObj (m : gmap string json).

Definition type_name (v : json) : string :=
  match v with
  | JNull => "NoneType"
  | JBool _ => "bool"
  | JInt _ => "int"
  | JFloat _ => "float"
  | JStr _ => "str"
  | JArr _ => "list"
  | JObj _ => "dict"
  end.

(** [sub in s] for two strings. *)
Fixpoint is_substring (sub s : string) : bool :=
  if String.prefix sub s then true
  else match s with
       | EmptyString => false
       | String _ s' => is_substring sub s'
       end.

Definition is_str (key : string) (v : json) : bool :=
  match v with
  | JStr s => String.eqb s key
  | _ => false
  end.

(** [key in data]: key membership for a dict, element membership for a list,
    substring test for a str; the other values are not containers. *)
Definition py_in (key : string) (data : json) : result bool :=
  match data with
  | JObj m => Ok (bool_decide (is_Some (m !! key)))
  | JArr l => Ok (existsb (is_str key) l)
  | JStr s => Ok (is_substring key s)
  | JNull | JBool _ | JInt _ | JFloat _ =>
      Raise (mkExc TypeError
               ("argument of type '" +:+ type_name data +:+ "' is not iterable"))
  end.

(** [data[key]] for a str key. *)
Definition getitem (data : json) (key : string) : result json :=
  match data with
  | JObj m =>
      match m !! key with
      | Some v => Ok v
      | None => Raise (mkExc KeyError key)
      end
  | JArr _ =>
      Raise (mkExc TypeError "list indices must be integers or slices, not str")
  | JStr _ => Raise (mkExc TypeError "string indices must be integers")
  | JNull | JBool _ | JInt _ | JFloat _ =>
      Raise (mkExc TypeError
               ("'" +:+ type_name data +:+ "' object is not subscriptable"))
  end.

(** [s.split(",", 1)]: at most one split, at the first comma. *)
Fixpoint split_comma (s : string) : list string :=
  match s with
  | EmptyString => [EmptyString]
  | String c s' =>
      if Ascii.eqb c ","%char then [EmptyString; s']
      else match split_comma s' with
           | h :: t => String c h :: t
           | [] => []
           end
  end.

(** [v.split(",", 1)] for the value found under ["image"]. *)
Definition split (v : json) : result (list string) :=
  match v with
  | JStr s => Ok (split_comma s)
  | _ =>
      Raise (mkExc AttributeError
               ("'" +:+ type_name v +:+ "' object has no attribute 'split'"))
  end.

(** [_, encoded = parts] *)
Definition unpack2 (parts : list string) : result (string * string) :=
  match parts with
  | [a; b] => Ok (a, b)
  | _ =>
      Raise (mkExc ValueError "not enough values to unpack (expected 2, got 1)")
  end.

(** The JSON bodies the handler builds with [jsonify]. *)
Inductive body (F : Type) :=
| ErrorBody (error : string)
| SmileBody (smile : bool) (score : F).
Arguments ErrorBody {F} error.
Arguments SmileBody {F} smile score.

(** A body and its HTTP status. *)
Definition response (F : Type) : Type := body F * Z.

Section Predict.
Context {F : Type} {PF : PyFloat F}.

(** The collaborators: base64, NumPy, OpenCV and MediaPipe.  Each call
    returns or raises; [imdecode] returns [None] for a buffer that is not an
    image. *)
Variables Bytes NDArray MPImage : Type.
Variable b64decode : string -> result Bytes.
Variable frombuffer : Bytes -> result NDArray.
Variable imdecode : NDArray -> result (option NDArray).
Variable flip : NDArray -> result NDArray.
Variable cvtColor : NDArray -> result NDArray.
Variable mp_Image : NDArray -> result MPImage.
Variable detect : MPImage -> result (FaceLandmarkerResult F).

(** The body of the [try] block; [get_json] is the outcome of
    [request.get_json()]. *)
Definition predict_smile_try (get_json : result json) : result (response F) :=
  data ← get_json;
  has_image ← py_in "image" data;
  if negb has_image then Ok (ErrorBody "No image data", 400)
  else
    image ← getitem data "image";
    parts ← split image;
    '(_, encoded) ← unpack2 parts;
    img_data ← b64decode encoded;
    nparr ← frombuffer img_data;
    decoded ← imdecode nparr;
    match decoded with
    | None => Ok (ErrorBody "Decode failed", 400)
    | Some img =>
        img ← flip img;
        img_rgb ← cvtColor img;
        mp_image ← mp_Image img_rgb;
        detection_result ← detect mp_image;
        '(score, smile_detected) ← smile_result detection_result;
        Ok (SmileBody smile_detected score, 200)
    end.

(** [except Exception as e]: the message is also printed; standard output is
    not part of the model. *)
Definition predict_smile (get_json : result json) : response F :=
  match predict_smile_try get_json with
  | Ok resp => resp
  | Raise e => (ErrorBody (exc_msg e), 500)
  end.

(** Every step of decoding and detection returned normally, and detection
    produced [detection_result]. *)
Definition decoded_and_detected (get_json : result json)
  (detection_result : FaceLandmarkerResult F) : Prop :=
  exists data image prefix encoded img_data nparr img flipped img_rgb mp_image,
    get_json = Ok data /\
    py_in "image" data = Ok true /\
    getitem data "image" = Ok image /\
    split image = Ok [prefix; encoded] /\
    b64decode encoded = Ok img_data /\
    frombuffer img_data = Ok nparr /\
    imdecode nparr = Ok (Some img) /\
    flip img = Ok flipped /\
    cvtColor flipped = Ok img_rgb /\
    mp_Image img_rgb = Ok mp_image /\
    detect mp_image = Ok detection_result.
End Predict.

(** ** Sample inputs *)

(** A 478-point face mesh whose [y] coordinates are given by index. *)
Definition mesh {F : Type} {PF : PyFloat F} (ys : nat -> F)
  : list (Landmark.t F) :=
  map (fun i => Landmark.mk (lit 0) (ys i) (lit 0)) (seq 0 478).

(** The left corner, the other four upper-lip samples, the five lower-lip
    samples and the right corner at given heights; every other point at
    [other]. *)
Definition mouth {F : Type} (left upper lower right other : F) (i : nat) : F :=
  if bool_decide (i = MOUTH_CORNERS_LEFT) then left
  else if bool_decide (i = MOUTH_CORNERS_RIGHT) then right
  else if bool_decide (i ∈ take 5 MOUTH_UPPER_POINTS) then upper
  else if bool_decide (i ∈ take 5 MOUTH_LOWER_POINTS) then lower
  else other.

Definition one_face {F : Type} (landmarks : list (Landmark.t F))
  : FaceLandmarkerResult F :=
  mkResult (Some [landmarks]).

(** Scenario A of the specification: upper lip at 0.40 on average, lower lip
    at 0.42, both corners at 0.37. *)
Definition scenario_A {F : Type} {PF : PyFloat F} : list (Landmark.t F) :=
  mesh (mouth (lit 0.37) (lit 0.4075) (lit 0.42) (lit 0.37) (lit 0.5)).

(** Scenario C: an open mouth (height 0.10) with raised corners. *)
Definition scenario_C {F : Type} {PF : PyFloat F} : list (Landmark.t F) :=
  mesh (mouth (lit 0.30) (lit 0.30) (lit 0.40) (lit 0.30) (lit 0.5)).

(** A request body carrying a data URL. *)
Definition sample_request : json :=
  JObj {[ "image" := JStr "data:image/png;base64,AAAA" ]}.

(** The handler with collaborators over one-point types: every call returns,
    and detection yields [detection_result]. *)
Definition sample_predict {F : Type} {PF : PyFloat F}
  (detection_result : FaceLandmarkerResult F) (get_json : result json)
  : response F :=
  predict_smile unit unit unit
    (fun _ => Ok ()) (fun _ => Ok ()) (fun _ => Ok (Some ()))
    (fun _ => Ok ()) (fun _ => Ok ()) (fun _ => Ok ())
    (fun _ => Ok detection_result) get_json.

(** The landmark list with the left corner raised by [d]: the [y] of
    [landmarks[MOUTH_CORNERS_LEFT]] decreased by [d], every other point and
    coordinate kept. *)
Definition raise_left_corner {F : Type} {PF : PyFloat F} (d : F)
  (landmarks : list (Landmark.t F)) : list (Landmark.t F) :=
  match landmarks !! MOUTH_CORNERS_LEFT with
  | Some p =>
      <[MOUTH_CORNERS_LEFT :=
          Landmark.mk (Landmark.x p) (Landmark.y p - d)%py (Landmark.z p)]>
        landmarks
  | None => landmarks
  end.

(** A closed, smiling mouth: every lip sample and both corners at 0.5, the
    lower lip at 0.5625. *)
Definition smiling {F : Type} {PF : PyFloat F} : list (Landmark.t F) :=
  mesh (mouth (lit 0.5) (lit 0.5) (lit 0.5625) (lit 0.5) (lit 0.5)).

(** The same mouth with the left corner hanging at 0.625, below the
    centre. *)
Definition lopsided {F : Type} {PF : PyFloat F} : list (Landmark.t F) :=
  mesh (mouth (lit 0.625) (lit 0.5) (lit 0.5625) (lit 0.5) (lit 0.5)).

(** ** The [/manual_capture] handler *)

(** The JSON bodies [manual_capture] builds. *)
Inductive capture_body :=
| CaptureError (error : string)
| CaptureOk.

Section ManualCapture.
Variables Bytes NDArray : Type.
Variable b64decode : string -> result Bytes.
Variable frombuffer : Bytes -> result NDArray.
Variable imdecode : NDArray -> result (option NDArray).

(** The body of the [try] block of [manual_capture]. *)
Definition manual_capture_try (get_json : result json)
  : result (capture_body * Z) :=
  data ← get_json;
  has_image ← py_in "image" data;
  if negb has_image then Ok (CaptureError "No image data", 400)
  else
    image ← getitem data "image";
    parts ← split image;
    '(_, encoded) ← unpack2 parts;
    img_data ← b64decode encoded;
    nparr ← frombuffer img_data;
    decoded ← imdecode nparr;
    match decoded with
    | None => Ok (CaptureError "Failed to decode image", 400)
    | Some _ => Ok (CaptureOk, 200)
    end.

Definition manual_capture (get_json : result json) : capture_body * Z :=
  match manual_capture_try get_json with
  | Ok resp => resp
  | Raise e => (CaptureError (exc_msg e), 500)
  end.
End ManualCapture.

(** ** Inputs and quantities the further properties speak of *)

(** The indices [calculate_smile_score] reads. *)
Definition scored_points : list nat :=
  MOUTH_CORNERS_LEFT :: MOUTH_CORNERS_RIGHT
  :: take 5 MOUTH_UPPER_POINTS ++ take 5 MOUTH_LOWER_POINTS.

(** [avg_elevation] of [calculate_smile_score], as a function of the mouth
    centre and of the two corner heights. *)
Definition avg_elevation {F : Type} {PF : PyFloat F} (center left_y right_y : F)
  : F :=
  ((py_max (lit 0) (center - left_y) + py_max (lit 0) (center - right_y))
   / lit 2)%py.

(** The landmark list with the right corner raised by [d]. *)
Definition raise_right_corner {F : Type} {PF : PyFloat F} (d : F)
  (landmarks : list (Landmark.t F)) : list (Landmark.t F) :=
  match landmarks !! MOUTH_CORNERS_RIGHT with
  | Some p =>
      <[MOUTH_CORNERS_RIGHT :=
          Landmark.mk (Landmark.x p) (Landmark.y p - d)%py (Landmark.z p)]>
        landmarks
  | None => landmarks
  end.

(** [manual_capture] with collaborators over one-point types that always
    return an image. *)
Definition sample_capture (get_json : result json) : capture_body * Z :=
  manual_capture unit unit
    (fun _ => Ok ()) (fun _ => Ok ()) (fun _ => Ok (Some ())) get_json.

(** Two landmark lists show the same height at index [i], or both lack it. *)
Definition same_y {F : Type} (lm lm' : list (Landmark.t F)) (i : nat) : Prop :=
  Landmark.y <$> lm !! i = Landmark.y <$> lm' !! i.

(** The smiling mouth of [smiling] in a different face: every point the
    scorer does not read is elsewhere. *)
Definition smiling_elsewhere {F : Type} {PF : PyFloat F} : list (Landmark.t F) :=
  mesh (mouth (lit 0.5) (lit 0.5) (lit 0.5625) (lit 0.5) (lit 0.9)).

(** Scenario B of the specification: the mouth of scenario A with both
    corners level with the centre, at 0.41. *)
Definition scenario_B {F : Type} {PF : PyFloat F} : list (Landmark.t F) :=
  mesh (mouth (lit 0.41) (lit 0.3975) (lit 0.42) (lit 0.41) (lit 0.5)).

(** A binary64 face whose lower-lip samples are NaN. *)
Definition nan_mouth : list (Landmark.t float) :=
  mesh (PF := binary64 B64.sum_left)
    (mouth 0.5%float 0.5%float nan 0.5%float 0.5%float).

Section Decoding.
Variables Bytes NDArray : Type.
Variable b64decode : string -> result Bytes.
Variable frombuffer : Bytes -> result NDArray.
Variable imdecode : NDArray -> result (option NDArray).

(** The image was found in the body, split, decoded from base64 and decoded
    as an image. *)
Definition decoded_image (get_json : result json) : Prop :=
  exists data image prefix encoded img_data nparr img,
    get_json = Ok data /\
    py_in "image" data = Ok true /\
    getitem data "image" = Ok image /\
    split image = Ok [prefix; encoded] /\
    b64decode encoded = Ok img_data /\
    frombuffer img_data = Ok nparr /\
    imdecode nparr = Ok (Some img).
End Decoding.

(** A request whose data URL has another prefix and that carries a second
    field. *)
Definition other_request : json :=
  JObj {[ "image" := JStr "x,AAAA"; "camera" := JStr "front" ]}.

(** * Properties *)

Set Warnings "-inexact-float".

Ltac unfold_bind := unfold mbind, result_bind, mret, result_ret in *.

(** ** Lookups *)

Lemma index_lt {A} (l : list A) (i : nat) :
  (i < length l)%nat -> exists a, index l i = Ok a.
Proof.
  intros Hi. unfold index.
  destruct (lookup_lt_is_Some_2 l i Hi) as [a ->]. eauto.
Qed.

Lemma index_Ok_lt {A} (l : list A) (i : nat) (a : A) :
  index l i = Ok a -> (i < length l)%nat.
Proof.
  unfold index. destruct (l !! i) eqn:E; [|discriminate].
  intros _. eapply lookup_lt_Some; eauto.
Qed.

Section ScorerFacts.
Context {F : Type} {PF : PyFloat F}.

Lemma ys_at_ok (lm : list (Landmark.t F)) (idx : list nat) :
  Forall (fun i => (i < length lm)%nat) idx ->
  exists ys, ys_at lm idx = Ok ys.
Proof.
  induction 1 as [|i idx Hi _ [ys IH]]; simpl; [eauto|].
  destruct (index_lt lm i Hi) as [p ->]. unfold_bind. rewrite IH. eauto.
Qed.

Lemma mean5_ok (lm : list (Landmark.t F)) (points : list nat) :
  Forall (fun i => (i < length lm)%nat) (take 5 points) ->
  exists m, mean5 lm points = Ok m.
Proof.
  intros Hall. unfold mean5.
  destruct (ys_at_ok lm _ Hall) as [ys ->]. unfold_bind. eauto.
Qed.

(** A landmark list that reaches index 291 has every point the scorer
    reads. *)
Lemma lookups_ok (lm : list (Landmark.t F)) :
  (MOUTH_CORNERS_RIGHT < length lm)%nat ->
  exists lc rc u l,
    index lm MOUTH_CORNERS_LEFT = Ok lc /\
    index lm MOUTH_CORNERS_RIGHT = Ok rc /\
    upper_y lm = Ok u /\ lower_y lm = Ok l.
Proof.
  unfold MOUTH_CORNERS_RIGHT, MOUTH_CORNERS_LEFT. intros Hlen.
  destruct (index_lt lm 61) as [lc Hlc]; [lia|].
  destruct (index_lt lm 291) as [rc Hrc]; [lia|].
  destruct (mean5_ok lm MOUTH_UPPER_POINTS) as [u Hu].
  { simpl. repeat constructor; lia. }
  destruct (mean5_ok lm MOUTH_LOWER_POINTS) as [l Hl].
  { simpl. repeat constructor; lia. }
  exists lc, rc, u, l. auto.
Qed.

(** The scorer on a detected face, once its lookups are known. *)
Lemma calculate_face (lm : list (Landmark.t F)) rest lc rc u l :
  index lm MOUTH_CORNERS_LEFT = Ok lc ->
  index lm MOUTH_CORNERS_RIGHT = Ok rc ->
  upper_y lm = Ok u -> lower_y lm = Ok l ->
  calculate_smile_score (mkResult (Some (lm :: rest))) =
    if (mouth_height u l >? lit 0.08)%py then Ok (lit 0.0)
    else Ok (round3 (raw_score (center_y u l) (Landmark.y lc) (Landmark.y rc))).
Proof.
  intros Hlc Hrc Hu Hl. unfold calculate_smile_score. simpl.
  rewrite Hlc, Hrc, Hu, Hl. reflexivity.
Qed.

Lemma calculate_first_only (lm : list (Landmark.t F)) rest :
  calculate_smile_score (mkResult (Some (lm :: rest))) =
  calculate_smile_score (mkResult (Some [lm])).
Proof. reflexivity. Qed.
End ScorerFacts.

(** ** No face *)

(** C1. When the detector result has no landmark set ([face_landmarks] is
    [None] or the empty list), the scorer returns 0.0 and the decision is
    false; nothing is raised.  Stated for binary64 (whatever the summation)
    and for exact arithmetic. *)
Theorem no_face_result (sum : list float -> float) :
  smile_result (PF := binary64 sum) (mkResult None) = Ok (0%float, false) /\
  smile_result (PF := binary64 sum) (mkResult (Some [])) = Ok (0%float, false) /\
  smile_result (PF := exactQ) (mkResult None) = Ok (0.0%Q, false) /\
  smile_result (PF := exactQ) (mkResult (Some [])) = Ok (0.0%Q, false).
Proof. repeat split; reflexivity. Qed.

(** ** The openness gate *)

(** C2. On a landmark list that reaches index 291, when the mean of the five
    lower-lip samples exceeds the mean of the five upper-lip samples by more
    than 0.08 (as computed in binary64), the result is 0.0 and false: no
    assumption is made on the corner landmarks. *)
Theorem openness_gate_precedence
  (sum : list float -> float) (lm : list (Landmark.t float)) rest (u l : float) :
  (MOUTH_CORNERS_RIGHT < length lm)%nat ->
  upper_y (PF := binary64 sum) lm = Ok u ->
  lower_y (PF := binary64 sum) lm = Ok l ->
  (0.08 <? l - u)%float = true ->
  smile_result (PF := binary64 sum) (mkResult (Some (lm :: rest)))
  = Ok (0%float, false).
Proof.
  intros Hlen Hu Hl Hgate.
  destruct (lookups_ok (PF := binary64 sum) lm Hlen)
    as (lc & rc & u' & l' & Hlc & Hrc & Hu' & Hl').
  rewrite Hu in Hu'. rewrite Hl in Hl'. inversion Hu'; inversion Hl'; subst u' l'.
  unfold smile_result.
  rewrite (calculate_face (PF := binary64 sum) lm rest lc rc u l Hlc Hrc Hu Hl).
  replace (mouth_height u l >? lit 0.08)%py with (0.08 <? l - u)%float
    by reflexivity.
  rewrite Hgate. reflexivity.
Qed.

Lemma openness_gate_precedence_witness :
  smile_result (PF := binary64 B64.sum_left)
    (mkResult (Some [scenario_C (PF := binary64 B64.sum_left)]))
  = Ok (0%float, false).
Proof.
  apply (openness_gate_precedence B64.sum_left
           (scenario_C (PF := binary64 B64.sum_left)) []
           0.29999999999999999%float 0.40000000000000002%float).
  - apply Nat.ltb_lt. vm_compute. reflexivity.
  - vm_compute. reflexivity.
  - vm_compute. reflexivity.
  - vm_compute. reflexivity.
Defined.

(** ** Only the first face counts *)

(** C9. Whatever the arithmetic, the score and the decision computed from a
    detector result with one or more landmark sets are those computed from
    its first landmark set alone. *)
Theorem first_face_only {F : Type} {PF : PyFloat F}
  (lm : list (Landmark.t F)) (rest : list (list (Landmark.t F))) :
  calculate_smile_score (mkResult (Some (lm :: rest)))
  = calculate_smile_score (mkResult (Some [lm])) /\
  smile_result (mkResult (Some (lm :: rest))) = smile_result (mkResult (Some [lm])).
Proof.
  split; [apply calculate_first_only|].
  unfold smile_result. rewrite (calculate_first_only lm rest). reflexivity.
Qed.

(** ** The [/predict] handler *)

Section PredictFacts.
Context {F : Type} {PF : PyFloat F}.
Variables Bytes NDArray MPImage : Type.
Variable b64decode : string -> result Bytes.
Variable frombuffer : Bytes -> result NDArray.
Variable imdecode : NDArray -> result (option NDArray).
Variable flip : NDArray -> result NDArray.
Variable cvtColor : NDArray -> result NDArray.
Variable mp_Image : NDArray -> result MPImage.
Variable detect : MPImage -> result (FaceLandmarkerResult F).

Abbreviation handler :=
  (predict_smile Bytes NDArray MPImage b64decode frombuffer imdecode flip
     cvtColor mp_Image detect).
Abbreviation handler_try :=
  (predict_smile_try Bytes NDArray MPImage b64decode frombuffer imdecode flip
     cvtColor mp_Image detect).
Abbreviation all_steps_ok :=
  (decoded_and_detected Bytes NDArray MPImage b64decode frombuffer imdecode
     flip cvtColor mp_Image detect).

(** What the [try] block returns. *)
Lemma handler_try_cases (get_json : result json) :
  (exists e, handler_try get_json = Raise e) \/
  handler_try get_json = Ok (ErrorBody "No image data", 400) \/
  handler_try get_json = Ok (ErrorBody "Decode failed", 400) \/
  (exists det score smile,
     all_steps_ok get_json det /\ smile_result det = Ok (score, smile) /\
     handler_try get_json = Ok (SmileBody smile score, 200)).
Proof.
  unfold predict_smile_try.
  destruct get_json as [data|e]; [|left; eexists; reflexivity].
  unfold_bind.
  destruct (py_in "image" data) as [[|]|e] eqn:Hin; simpl;
    [|right; left; reflexivity|left; eexists; reflexivity].
  destruct (getitem data "image") as [image|e] eqn:Hget;
    [|left; eexists; reflexivity].
  destruct (split image) as [parts|e] eqn:Hsplit; [|left; eexists; reflexivity].
  destruct parts as [|prefix [|encoded [|? ?]]]; simpl;
    try (left; eexists; reflexivity).
  destruct (b64decode encoded) as [img_data|e] eqn:Hb64;
    [|left; eexists; reflexivity].
  destruct (frombuffer img_data) as [nparr|e] eqn:Hbuf;
    [|left; eexists; reflexivity].
  destruct (imdecode nparr) as [[img|]|e] eqn:Hdec;
    [|right; right; left; reflexivity|left; eexists; reflexivity].
  destruct (flip img) as [flipped|e] eqn:Hflip; [|left; eexists; reflexivity].
  destruct (cvtColor flipped) as [img_rgb|e] eqn:Hcvt;
    [|left; eexists; reflexivity].
  destruct (mp_Image img_rgb) as [mp_image|e] eqn:Hmp;
    [|left; eexists; reflexivity].
  destruct (detect mp_image) as [det|e] eqn:Hdet; [|left; eexists; reflexivity].
  destruct (smile_result det) as [[score smile]|e] eqn:Hres;
    [|left; eexists; reflexivity].
  right; right; right. exists det, score, smile. split; [|split; [assumption|reflexivity]].
  exists data, image, prefix, encoded, img_data, nparr, img, flipped, img_rgb, mp_image.
  repeat split; assumption.
Qed.

(** An exception raised anywhere in the [try] block becomes a 500 response
    carrying its message. *)
Lemma handler_raise (get_json : result json) (e : PyExc) :
  handler_try get_json = Raise e ->
  handler get_json = (ErrorBody (exc_msg e), 500).
Proof. unfold predict_smile. intros ->. reflexivity. Qed.

(** C7. Whatever the collaborators do, the handler returns a response: an
    error body with status 400 or 500, or a smile body with status 200, and
    the latter only when every step of decoding and detection returned
    normally (the score being that of the detection result).  So a failure of
    decoding or detection always surfaces as a structured error. *)
Theorem failures_are_structured (get_json : result json) :
  match handler get_json with
  | (ErrorBody _, status) => status = 400 \/ status = 500
  | (SmileBody smile score, status) =>
      status = 200 /\
      exists det, all_steps_ok get_json det /\
                  smile_result det = Ok (score, smile)
  end.
Proof.
  unfold predict_smile.
  destruct (handler_try_cases get_json)
    as [[e ->]|[->|[->|(det & score & smile & Hall & Hres & ->)]]]; simpl; eauto.
Qed.

(** C6. In every response that carries a score, the [smile] flag is true
    exactly when the score is greater than 0.5. *)
Theorem detected_iff_above_half (get_json : result json) smile score status :
  handler get_json = (SmileBody smile score, status) ->
  smile = true <-> (score >? lit 0.5)%py = true.
Proof.
  unfold predict_smile.
  destruct (handler_try_cases get_json)
    as [[e ->]|[->|[->|(det & sc & sm & _ & Hres & ->)]]];
    try discriminate.
  intros [= <- <- _]. unfold smile_result in Hres. unfold_bind.
  destruct (calculate_smile_score det) as [s|?]; [|discriminate].
  injection Hres as <- <-. reflexivity.
Qed.

(** What the handler answers to a body that is not a JSON object, and to a
    body that [get_json] rejects. *)
Lemma handler_get_json_raises (e : PyExc) :
  handler (Raise e) = (ErrorBody (exc_msg e), 500).
Proof. reflexivity. Qed.

Lemma handler_not_container (data : json) :
  match data with
  | JNull | JBool _ | JInt _ | JFloat _ => True
  | _ => False
  end ->
  raises (py_in "image" data) /\
  exists msg, handler (Ok data) = (ErrorBody msg, 500).
Proof.
  destruct data; intros []; (split; [eexists; reflexivity|eexists; reflexivity]).
Qed.

Lemma handler_no_image (data : json) :
  py_in "image" data = Ok false ->
  handler (Ok data) = (ErrorBody "No image data", 400).
Proof.
  intros Hin. unfold predict_smile, predict_smile_try. unfold_bind.
  rewrite Hin. reflexivity.
Qed.

Lemma handler_str_or_list_with_image (data : json) :
  match data with JStr _ | JArr _ => True | _ => False end ->
  py_in "image" data = Ok true ->
  exists msg, handler (Ok data) = (ErrorBody msg, 500).
Proof.
  intros Hdata Hin. unfold predict_smile, predict_smile_try. unfold_bind.
  rewrite Hin. destruct data; try contradiction; eexists; reflexivity.
Qed.

(** C10, as amended.  A body that [get_json] rejects, or that parses to
    null, a boolean or a number, gets status 500: for the latter values the
    membership test raises.  On a JSON string or array the test does not
    raise: the answer is 400 when ["image"] is not a substring (an element),
    and 500, from the subscript, when it is. *)
Theorem non_object_body (data : json) :
  (forall e, handler (Raise e) = (ErrorBody (exc_msg e), 500)) /\
  match data with
  | JNull | JBool _ | JInt _ | JFloat _ =>
      raises (py_in "image" data) /\
      exists msg, handler (Ok data) = (ErrorBody msg, 500)
  | JStr _ | JArr _ =>
      exists found, py_in "image" data = Ok found /\
        if found then exists msg, handler (Ok data) = (ErrorBody msg, 500)
        else handler (Ok data) = (ErrorBody "No image data", 400)
  | JObj m =>
      if bool_decide (is_Some (m !! "image")) then True
      else handler (Ok data) = (ErrorBody "No image data", 400)
  end.
Proof.
  split; [intros e; reflexivity|].
  destruct data as [| b | n | q | s | l | m];
    try (apply handler_not_container; exact I).
  - destruct (is_substring "image" s) eqn:E.
    + exists true. split; [simpl; rewrite E; reflexivity|].
      apply handler_str_or_list_with_image; [exact I|simpl; rewrite E; reflexivity].
    + exists false. split; [simpl; rewrite E; reflexivity|].
      apply handler_no_image. simpl. rewrite E. reflexivity.
  - destruct (existsb (is_str "image") l) eqn:E.
    + exists true. split; [simpl; rewrite E; reflexivity|].
      apply handler_str_or_list_with_image; [exact I|simpl; rewrite E; reflexivity].
    + exists false. split; [simpl; rewrite E; reflexivity|].
      apply handler_no_image. simpl. rewrite E. reflexivity.
  - destruct (bool_decide (is_Some (m !! "image"))) eqn:E; [exact I|].
    apply handler_no_image. simpl. rewrite E. reflexivity.
Qed.
End PredictFacts.

(** C10, as the claim states it, fails on a JSON array: the membership test
    returns, and an array without ["image"] is answered like an object
    without the field, with status 400. *)
Lemma array_body_gets_400 :
  py_in "image" (JArr []) = Ok false /\
  sample_predict (PF := exactQ) (mkResult None) (Ok (JArr []))
  = (ErrorBody "No image data", 400).
Proof. split; reflexivity. Qed.

Lemma detected_iff_above_half_witness :
  true = true <->
  @fgt float (binary64 B64.sum_left) 1%float
    (@lit float (binary64 B64.sum_left) 0.5) = true.
Proof.
  apply (detected_iff_above_half (PF := binary64 B64.sum_left)
           unit unit unit
           (fun _ => Ok ()) (fun _ => Ok ()) (fun _ => Ok (Some ()))
           (fun _ => Ok ()) (fun _ => Ok ()) (fun _ => Ok ())
           (fun _ => Ok (one_face (scenario_A (PF := binary64 B64.sum_left))))
           (Ok sample_request) true 1%float 200).
  vm_compute. reflexivity.
Defined.

(** ** The left corner is an upper-lip sample *)

Lemma index_insert_eq {A} (l : list A) (i : nat) (a b : A) :
  index l i = Ok a -> index (<[i := b]> l) i = Ok b.
Proof.
  intros Hi. apply index_Ok_lt in Hi. unfold index.
  rewrite list_lookup_insert_eq by assumption. reflexivity.
Qed.

Lemma index_insert_ne {A} (l : list A) (i j : nat) (b : A) :
  i <> j -> index (<[i := b]> l) j = index l j.
Proof.
  intros Hne. unfold index. rewrite list_lookup_insert_ne by assumption.
  reflexivity.
Qed.

Lemma index_Ok_lookup {A} (l : list A) (i : nat) (a : A) :
  index l i = Ok a -> l !! i = Some a.
Proof. unfold index. destruct (l !! i); congruence. Qed.

Section RaiseLeftCorner.
Context {F : Type} {PF : PyFloat F}.

Lemma raise_left_corner_left (d : F) (lm : list (Landmark.t F)) p :
  index lm MOUTH_CORNERS_LEFT = Ok p ->
  index (raise_left_corner d lm) MOUTH_CORNERS_LEFT
  = Ok (Landmark.mk (Landmark.x p) (Landmark.y p - d)%py (Landmark.z p)).
Proof.
  intros Hp. unfold raise_left_corner.
  rewrite (index_Ok_lookup _ _ _ Hp). eapply index_insert_eq; eauto.
Qed.

Lemma raise_left_corner_other (d : F) (lm : list (Landmark.t F)) (j : nat) :
  j <> MOUTH_CORNERS_LEFT ->
  index (raise_left_corner d lm) j = index lm j.
Proof.
  intros Hj. unfold raise_left_corner.
  destruct (lm !! MOUTH_CORNERS_LEFT); [|reflexivity].
  apply index_insert_ne. congruence.
Qed.

Lemma raise_left_corner_ys_at (d : F) (lm : list (Landmark.t F)) idx :
  MOUTH_CORNERS_LEFT ∉ idx ->
  ys_at (raise_left_corner d lm) idx = ys_at lm idx.
Proof.
  induction idx as [|i idx IH]; [reflexivity|].
  intros Hnot. apply not_elem_of_cons in Hnot as [Hne Hnot]. simpl.
  rewrite raise_left_corner_other by congruence. rewrite IH by assumption.
  reflexivity.
Qed.

(** The lower-lip mean does not read the left corner. *)
Lemma raise_left_corner_lower (d : F) (lm : list (Landmark.t F)) :
  lower_y (raise_left_corner d lm) = lower_y lm.
Proof.
  unfold lower_y, mean5. rewrite raise_left_corner_ys_at; [reflexivity|].
  vm_compute. intros Hin. repeat (inversion Hin as [|? ? ? Hin']; subst; clear Hin; rename Hin' into Hin).
Qed.
End RaiseLeftCorner.

Section UpperLipReadsLeftCorner.
Context {F : Type} {PF : PyFloat F}.

(** The five points behind the upper-lip mean; the first is the left
    corner. *)
Lemma upper_y_inv (lm : list (Landmark.t F)) (u : F) :
  upper_y lm = Ok u ->
  exists p0 p1 p2 p3 p4,
    index lm MOUTH_CORNERS_LEFT = Ok p0 /\ index lm 185 = Ok p1 /\
    index lm 40 = Ok p2 /\ index lm 39 = Ok p3 /\ index lm 37 = Ok p4 /\
    u = (fsum [Landmark.y p0; Landmark.y p1; Landmark.y p2;
               Landmark.y p3; Landmark.y p4] / lit 5)%py.
Proof.
  unfold upper_y, mean5, MOUTH_CORNERS_LEFT. simpl. unfold_bind.
  destruct (index lm 61) as [p0|]; [|discriminate].
  destruct (index lm 185) as [p1|]; [|discriminate].
  destruct (index lm 40) as [p2|]; [|discriminate].
  destruct (index lm 39) as [p3|]; [|discriminate].
  destruct (index lm 37) as [p4|]; [|discriminate].
  intros [= <-]. exists p0, p1, p2, p3, p4. repeat split; reflexivity.
Qed.

Lemma upper_y_raise (d : F) (lm : list (Landmark.t F)) p0 p1 p2 p3 p4 :
  index lm MOUTH_CORNERS_LEFT = Ok p0 -> index lm 185 = Ok p1 ->
  index lm 40 = Ok p2 -> index lm 39 = Ok p3 -> index lm 37 = Ok p4 ->
  upper_y (raise_left_corner d lm)
  = Ok (fsum [(Landmark.y p0 - d)%py; Landmark.y p1; Landmark.y p2;
              Landmark.y p3; Landmark.y p4] / lit 5)%py.
Proof.
  intros H0 H1 H2 H3 H4. unfold upper_y, mean5. simpl.
  rewrite (raise_left_corner_left d lm p0 H0).
  rewrite !raise_left_corner_other by (unfold MOUTH_CORNERS_LEFT; lia).
  rewrite H1, H2, H3, H4. reflexivity.
Qed.
End UpperLipReadsLeftCorner.



Section ExactArithmetic.
#[local] Open Scope Q_scope.

(** With exact rationals in place of floats, raising the left corner alone
    by [d > 0] lowers the upper-lip mean by [d/5] and the mouth centre by
    [d/10], and opens the mouth by [d/5]; with floats each of these is
    rounded. *)
Lemma exact_left_corner_shift
  (lm : list (Landmark.t Q)) (d u l : Q) :
  0 < d ->
  upper_y lm = Ok u -> lower_y lm = Ok l ->
  MOUTH_CORNERS_LEFT ∈ take 5 MOUTH_UPPER_POINTS /\
  exists u',
    upper_y (raise_left_corner d lm) = Ok u' /\
    lower_y (raise_left_corner d lm) = Ok l /\
    u' == u - d / 5 /\
    center_y u' l == center_y u l - d / 10 /\
    mouth_height u' l == mouth_height u l + d / 5.
Proof.
  intros Hd Hu Hl. split; [vm_compute; left|].
  destruct (upper_y_inv lm u Hu) as (p0 & p1 & p2 & p3 & p4 & H0 & H1 & H2 & H3 & H4 & ->).
  eexists. split; [apply (upper_y_raise d lm p0 p1 p2 p3 p4); assumption|].
  split; [rewrite raise_left_corner_lower; assumption|].
  unfold center_y, mouth_height. simpl.
  repeat split; field.
Qed.
End ExactArithmetic.

(** ** Rounding to the nearest integer, ties to even *)

Section Rounding.
#[local] Open Scope Q_scope.

Lemma floor_bounds (q : Q) :
  inject_Z (Qfloor q) <= q /\ q < inject_Z (Qfloor q) + 1.
Proof.
  split; [apply Qfloor_le|].
  pose proof (Qlt_floor q) as H. rewrite inject_Z_plus in H. exact H.
Qed.

Lemma round_half_even_cases (q : Q) :
  (q - inject_Z (Qfloor q) < 1 # 2 /\ round_half_even q = Qfloor q) \/
  (q - inject_Z (Qfloor q) == 1 # 2 /\
   (round_half_even q = Qfloor q \/ round_half_even q = (Qfloor q + 1)%Z)) \/
  (1 # 2 < q - inject_Z (Qfloor q) /\ round_half_even q = (Qfloor q + 1)%Z).
Proof.
  unfold round_half_even.
  destruct (Qcompare_spec (q - inject_Z (Qfloor q)) (1 # 2)) as [E|E|E].
  - right; left. split; [exact E|]. destruct (Z.even (Qfloor q)); auto.
  - left. auto.
  - right; right. auto.
Qed.

Lemma round_half_even_near (q : Q) :
  inject_Z (round_half_even q) - (1 # 2) <= q /\
  q <= inject_Z (round_half_even q) + (1 # 2).
Proof.
  destruct (floor_bounds q) as [Hlo Hhi].
  destruct (round_half_even_cases q) as [[H ->]|[[H [-> | ->]]|[H ->]]];
    rewrite ?inject_Z_plus; change (inject_Z 1) with 1; lra.
Qed.

(** On a tie the even neighbour is taken. *)
Lemma round_half_even_tie (q : Q) :
  q == inject_Z (round_half_even q) + (1 # 2) \/
  q == inject_Z (round_half_even q) - (1 # 2) ->
  Z.even (round_half_even q) = true.
Proof.
  destruct (floor_bounds q) as [Hlo Hhi]. unfold round_half_even.
  destruct (Qcompare_spec (q - inject_Z (Qfloor q)) (1 # 2)) as [E|E|E].
  - intros _. destruct (Z.even (Qfloor q)) eqn:Heven; [exact Heven|].
    rewrite Z.even_add, Heven. reflexivity.
  - intros [H|H]; lra.
  - rewrite inject_Z_plus. change (inject_Z 1) with 1. intros [H|H]; lra.
Qed.

Lemma round_half_even_mono (a b : Q) :
  a <= b -> (round_half_even a <= round_half_even b)%Z.
Proof.
  intros Hab. pose proof (Qfloor_resp_le a b Hab) as Hfl.
  destruct (floor_bounds a) as [Halo Hahi].
  destruct (floor_bounds b) as [Hblo Hbhi].
  destruct (Z.eq_dec (Qfloor a) (Qfloor b)) as [Heq|Hne].
  - unfold round_half_even. rewrite <- Heq.
    destruct (Qcompare_spec (a - inject_Z (Qfloor a)) (1 # 2)) as [Ea|Ea|Ea];
      destruct (Qcompare_spec (b - inject_Z (Qfloor a)) (1 # 2)) as [Eb|Eb|Eb];
      try lia; try lra; destruct (Z.even (Qfloor a)); lia.
  - assert (Hlt : (Qfloor a + 1 <= Qfloor b)%Z) by lia.
    destruct (round_half_even_cases a) as [[_ ->]|[[_ [-> | ->]]|[_ ->]]];
      destruct (round_half_even_cases b) as [[_ ->]|[[_ [-> | ->]]|[_ ->]]];
      lia.
Qed.

#[global] Instance round_half_even_proper : Proper (Qeq ==> eq) round_half_even.
Proof.
  intros a b Hab. apply Z.le_antisymm; apply round_half_even_mono; lra.
Qed.

Lemma round_half_even_Z (z : Z) : round_half_even (inject_Z z) = z.
Proof.
  unfold round_half_even. rewrite Qfloor_Z.
  destruct (Qcompare_spec (inject_Z z - inject_Z z) (1 # 2)) as [E|E|E];
    [lra|reflexivity|lra].
Qed.

Lemma round_half_even_range (q : Q) (lo hi : Z) :
  inject_Z lo <= q -> q <= inject_Z hi ->
  (lo <= round_half_even q <= hi)%Z.
Proof.
  intros Hlo Hhi. split.
  - rewrite <- (round_half_even_Z lo). apply round_half_even_mono, Hlo.
  - rewrite <- (round_half_even_Z hi). apply round_half_even_mono, Hhi.
Qed.


#[global] Instance thousandths_proper : Proper (Qeq ==> eq) thousandths.
Proof. intros a b Hab. unfold thousandths. rewrite Hab. reflexivity. Qed.

Lemma thousandths_unit (q : Q) : 0 <= q -> q <= 1 -> (0 <= thousandths q <= 1000)%Z.
Proof.
  intros H0 H1. unfold thousandths. apply round_half_even_range; change (inject_Z 0) with 0; change (inject_Z 1000) with 1000; lra.
Qed.
End Rounding.

(** The same scenario in binary64, under either summation: the means are
    0.4 and 0.42000000000000004, and the score is 1.0. *)
Lemma scenario_A_binary64 :
  smile_result (PF := binary64 B64.sum_left)
    (one_face (scenario_A (PF := binary64 B64.sum_left)))
  = Ok (1%float, true) /\
  smile_result (PF := binary64 B64.sum_compensated)
    (one_face (scenario_A (PF := binary64 B64.sum_compensated)))
  = Ok (1%float, true).
Proof. split; vm_compute; reflexivity. Qed.

(** C4. In binary64, whatever the summation: when the computed upper-lip
    mean is the float 0.40 and the computed lower-lip mean the float 0.42,
    each to within one unit in the last place (no sum of five floats divided
    by 5 is the float 0.42 itself), and both corners are at the float 0.37,
    the score is 1.0 and a smile is detected. *)
Theorem scenario_A_scores_one
  (sum : list float -> float) (lm : list (Landmark.t float)) rest
  (lc rc : Landmark.t float) (u l : float) :
  index lm MOUTH_CORNERS_LEFT = Ok lc ->
  index lm MOUTH_CORNERS_RIGHT = Ok rc ->
  upper_y (PF := binary64 sum) lm = Ok u ->
  lower_y (PF := binary64 sum) lm = Ok l ->
  B64.within_one_ulp u 0.40%float -> B64.within_one_ulp l 0.42%float ->
  Landmark.y lc = 0.37%float -> Landmark.y rc = 0.37%float ->
  smile_result (PF := binary64 sum) (mkResult (Some (lm :: rest)))
  = Ok (1%float, true).
Proof.
  intros Hlc Hrc Hu Hl Eu El Elc Erc. unfold smile_result.
  rewrite (calculate_face (PF := binary64 sum) lm rest lc rc u l Hlc Hrc Hu Hl).
  rewrite Elc, Erc.
  destruct Eu as [-> | [-> | ->]]; destruct El as [-> | [-> | ->]];
    vm_compute; reflexivity.
Qed.

Lemma scenario_A_scores_one_witness :
  smile_result (PF := binary64 B64.sum_left)
    (mkResult (Some [scenario_A (PF := binary64 B64.sum_left)]))
  = Ok (1%float, true).
Proof.
  apply (scenario_A_scores_one B64.sum_left
           (scenario_A (PF := binary64 B64.sum_left)) []
           (Landmark.mk 0%float 0.37%float 0%float)
           (Landmark.mk 0%float 0.37%float 0%float)
           0.4%float 0.42000000000000004%float);
    try (vm_compute; reflexivity).
  - right. left. reflexivity.
  - right. right. vm_compute. reflexivity.
Defined.


(** The gate apart, a left corner that hangs below the centre is a second way
    to lose score: raising it from 0.625 to 0.5625 leaves its own elevation at
    0 and lowers the centre, hence the right elevation; the score goes from
    0.482 to 0.393. *)
Lemma raised_low_corner_lowers_score :
  (calculate_smile_score (PF := exactQ) (one_face lopsided) = Ok (241 # 500)%Q /\
   calculate_smile_score (PF := exactQ)
     (one_face (raise_left_corner 0.0625%Q lopsided)) = Ok (393 # 1000)%Q) /\
  (calculate_smile_score (PF := binary64 B64.sum_left)
     (one_face (lopsided (PF := binary64 B64.sum_left))) = Ok 0.482%float /\
   calculate_smile_score (PF := binary64 B64.sum_left)
     (one_face (raise_left_corner (PF := binary64 B64.sum_left) 0.0625%float
                  (lopsided (PF := binary64 B64.sum_left)))) = Ok 0.393%float).
Proof. repeat split; vm_compute; reflexivity. Qed.

(** ** Binary64: the score is a thousandth between 0 and 1 *)

Section Binary64Score.

Lemma digits2_pos_bound (m : positive) :
  (Zpos m < 2 ^ Zpos (digits2_pos m))%Z.
Proof.
  induction m as [m IH|m IH|]; simpl digits2_pos.
  - rewrite Pos2Z.inj_succ, Z.pow_succ_r by lia. lia.
  - rewrite Pos2Z.inj_succ, Z.pow_succ_r by lia. lia.
  - reflexivity.
Qed.

(** A valid mantissa has at most 53 bits. *)
Lemma valid_mantissa_bound (s : bool) (m : positive) (e : Z) :
  valid_binary (S754_finite s m e) = true -> (Zpos m < 2 ^ 53)%Z.
Proof.
  unfold valid_binary, bounded, canonical_mantissa, fexp.
  intros H. apply andb_prop in H as [H _]. apply Z.eqb_eq in H.
  pose proof (digits2_pos_bound m) as Hm.
  assert (Hd : (Zpos (digits2_pos m) <= 53)%Z) by (unfold prec in H; lia).
  eapply Z.lt_le_trans; [exact Hm|]. apply Z.pow_le_mono_r; lia.
Qed.

Lemma exact_pos (m : positive) (e : Z) : (0 < B64.exact false m e)%Q.
Proof.
  unfold B64.exact. 
  assert (0 < 2 ^ e)%Q by (apply Qpower_0_lt; reflexivity).
  assert (0 < inject_Z (Z.pos m))%Q by (unfold Qlt; simpl; lia).
  nra.
Qed.

Lemma exact_lt_pow (m : positive) (e n : Z) :
  (Zpos m < 2 ^ n)%Z -> (0 <= n)%Z -> (n + e <= 0)%Z ->
  (B64.exact false m e < 1)%Q.
Proof.
  intros Hm Hn He. unfold B64.exact.
  assert (Hpe : (0 < 2 ^ e)%Q) by (apply Qpower_0_lt; reflexivity).
  assert (Hmq : (inject_Z (Zpos m) < 2 ^ n)%Q).
  { rewrite <- (Zpower_Qpower 2 n Hn). rewrite <- Zlt_Qlt. exact Hm. }
  assert (Hle : (2 ^ (n + e) <= 2 ^ 0)%Q).
  { apply Qpower_le_compat_l; [exact He|]. unfold Qle; simpl; lia. }
  rewrite Qpower_plus in Hle by discriminate.
  change (2 ^ 0)%Q with 1%Q in Hle.
  nra.
Qed.

Lemma compare_cont_Eq_Lt (p q : positive) :
  Pos.compare_cont Eq p q = Lt -> (Zpos p < Zpos q)%Z.
Proof. intros H. apply (proj1 (Pos.compare_lt_iff p q)) in H. lia. Qed.

(** A float strictly between 0 and 1 is finite and positive, and so is its
    exact value. *)
Lemma between_0_1 (x : float) :
  (0 <? x)%float = true -> (x <? 1)%float = true ->
  exists m e, Prim2SF x = S754_finite false m e /\
              (0 < B64.exact false m e)%Q /\ (B64.exact false m e < 1)%Q.
Proof.
  rewrite !ltb_spec. pose proof (Prim2SF_valid x) as Hv.
  replace (Prim2SF 0) with (S754_zero false) by reflexivity.
  replace (Prim2SF 1) with (S754_finite false 4503599627370496 (-52))
    by reflexivity.
  destruct (Prim2SF x) as [s|[|]| |[|] m e]; unfold SFltb, SFcompare;
    try discriminate.
  intros _ Hlt. exists m, e. split; [reflexivity|]. split; [apply exact_pos|].
  pose proof (valid_mantissa_bound false m e Hv) as Hm.
  destruct (Z.compare_spec e (-52)) as [He|He|He]; try discriminate.
  - subst e. apply (exact_lt_pow m (-52) 52); [|lia|lia].
    destruct (Pos.compare_cont Eq m 4503599627370496) eqn:Hc;
      try discriminate.
    apply compare_cont_Eq_Lt in Hc. exact Hc.
  - apply (exact_lt_pow m e 53); [exact Hm|lia|lia].
Qed.

Lemma thousandths_checked :
  forallb B64.thousandth_ok (map Z.of_nat (seq 0 1001)) = true.
Proof. vm_compute. reflexivity. Qed.

Lemma thousandth_ok_range (k : Z) :
  (0 <= k <= 1000)%Z -> B64.thousandth_ok k = true.
Proof.
  intros Hk. pose proof thousandths_checked as Hall.
  rewrite forallb_forall in Hall. apply Hall.
  apply in_map_iff. exists (Z.to_nat k). split; [lia|].
  apply in_seq. lia.
Qed.

(** What [round3] returns on a float of [[0, 1]] that a clamp produced: the
    float for [k] thousandths, [k] being the integer nearest to 1000 times
    the exact value, the even one on a tie. *)
Lemma round3_clamped (x : float) :
  x = 0%float \/ x = 1%float \/
  ((0 <? x)%float = true /\ (x <? 1)%float = true) ->
  exists k,
    (0 <= k <= 1000)%Z /\
    (inject_Z k - (1 # 2) <= 1000 * B64.to_Q x <= inject_Z k + (1 # 2))%Q /\
    ((1000 * B64.to_Q x == inject_Z k + (1 # 2))%Q \/
     (1000 * B64.to_Q x == inject_Z k - (1 # 2))%Q -> Z.even k = true) /\
    B64.round3 x = B64.of_thousandths false k.
Proof.
  intros [-> | [-> | [H0 H1]]].
  - exists 0%Z. split; [lia|]. split; [vm_compute; split; discriminate|].
    split; [intros _; reflexivity|reflexivity].
  - exists 1000%Z. split; [lia|]. split; [vm_compute; split; discriminate|].
    split; [intros _; reflexivity|vm_compute; reflexivity].
  - destruct (between_0_1 x H0 H1) as (m & e & Hx & Hpos & Hlt).
    assert (Hq : B64.to_Q x = B64.exact false m e)
      by (unfold B64.to_Q; rewrite Hx; reflexivity).
    rewrite Hq. clear Hq. remember (B64.exact false m e) as q eqn:Eq.
    exists (thousandths q). split; [apply thousandths_unit; lra|].
    pose proof (round_half_even_near (q * 1000)) as [Hlo Hhi].
    pose proof (round_half_even_tie (q * 1000)) as Htie.
    split; [unfold thousandths; split; lra|]. split.
    + unfold thousandths. intros [H|H]; apply Htie; [left|right]; lra.
    + unfold B64.round3. rewrite Hx, Eq. reflexivity.
Qed.

(** The clamp of [raw_score] in binary64. *)
Lemma clamp_binary64 (v : float) :
  let m := if (0 <? v)%float then v else 0%float in
  let x := if (m <? 1)%float then m else 1%float in
  x = 0%float \/ x = 1%float \/
  ((0 <? x)%float = true /\ (x <? 1)%float = true).
Proof.
  simpl. destruct (0 <? v)%float eqn:E0.
  - destruct (v <? 1)%float eqn:E1; auto.
  - left. reflexivity.
Qed.

Lemma raw_score_binary64 (sum : list float -> float) (c yl yr : float) :
  let raw := raw_score (PF := binary64 sum) c yl yr in
  raw = 0%float \/ raw = 1%float \/
  ((0 <? raw)%float = true /\ (raw <? 1)%float = true).
Proof.
  unfold raw_score, py_min, py_max. cbn [lit fgt binary64].
  replace (B64.of_Q 1.0) with 1%float by (vm_compute; reflexivity).
  replace (B64.of_Q 0.0) with 0%float by (vm_compute; reflexivity).
  apply clamp_binary64.
Qed.

Lemma ltb_leb (x y : float) : (x <? y)%float = true -> (x <=? y)%float = true.
Proof.
  rewrite ltb_spec, leb_spec. unfold SFltb, SFleb.
  destruct (SFcompare (Prim2SF x) (Prim2SF y)) as [[| |]|]; congruence.
Qed.

Lemma unit_binary64 (x : float) :
  x = 0%float \/ x = 1%float \/
  ((0 <? x)%float = true /\ (x <? 1)%float = true) ->
  (0 <=? x)%float = true /\ (x <=? 1)%float = true.
Proof.
  intros [-> | [-> | [H0 H1]]]; [split; reflexivity..|].
  split; apply ltb_leb; assumption.
Qed.

(** *** The order of finite floats is the order of their exact values *)

Lemma digits2_pos_lower (m : positive) :
  (2 ^ (Zpos (digits2_pos m) - 1) <= Zpos m)%Z.
Proof.
  induction m as [m IH|m IH|]; simpl digits2_pos.
  - rewrite Pos2Z.inj_succ.
    replace (Z.succ (Zpos (digits2_pos m)) - 1)%Z
      with (Z.succ (Zpos (digits2_pos m) - 1))%Z by lia.
    rewrite Z.pow_succ_r by lia. lia.
  - rewrite Pos2Z.inj_succ.
    replace (Z.succ (Zpos (digits2_pos m)) - 1)%Z
      with (Z.succ (Zpos (digits2_pos m) - 1))%Z by lia.
    rewrite Z.pow_succ_r by lia. lia.
  - simpl. lia.
Qed.

(** A valid finite float has its exponent at least [-1074], and 53
    significant bits unless the exponent is [-1074]. *)
Lemma valid_canonical (s : bool) (m : positive) (e : Z) :
  valid_binary (S754_finite s m e) = true ->
  (-1074 <= e)%Z /\ (e = (-1074)%Z \/ (2 ^ 52 <= Zpos m)%Z) /\
  (Zpos m < 2 ^ 53)%Z.
Proof.
  intros Hv. pose proof (valid_mantissa_bound s m e Hv) as Hm.
  unfold valid_binary, bounded, canonical_mantissa, fexp in Hv.
  apply andb_prop in Hv as [H _]. apply Z.eqb_eq in H.
  unfold prec, emin, emax in H.
  pose proof (digits2_pos_lower m) as Hlo.
  split; [lia|]. split; [|exact Hm].
  destruct (Z.eq_dec e (-1074)%Z) as [He|He]; [left; exact He|right].
  assert (Hd : Zpos (digits2_pos m) = 53%Z) by lia.
  rewrite Hd in Hlo. exact Hlo.
Qed.

Lemma exact_lt_man (m1 m2 : positive) (e : Z) :
  (Zpos m1 < Zpos m2)%Z -> (B64.exact false m1 e < B64.exact false m2 e)%Q.
Proof.
  intros H. unfold B64.exact.
  assert (Hp : (0 < 2 ^ e)%Q) by (apply Qpower_0_lt; reflexivity).
  assert (Hq : (inject_Z (Zpos m1) < inject_Z (Zpos m2))%Q)
    by (rewrite <- Zlt_Qlt; exact H).
  nra.
Qed.

Lemma exact_lt_exp (m1 m2 : positive) (e1 e2 : Z) :
  valid_binary (S754_finite false m1 e1) = true ->
  valid_binary (S754_finite false m2 e2) = true ->
  (e1 < e2)%Z -> (B64.exact false m1 e1 < B64.exact false m2 e2)%Q.
Proof.
  intros H1 H2 He.
  destruct (valid_canonical _ _ _ H1) as (Hmin1 & _ & Hhi1).
  destruct (valid_canonical _ _ _ H2) as (_ & [Hmin2 | Hlo2] & _); [lia|].
  unfold B64.exact.
  assert (Hp1 : (0 < 2 ^ e1)%Q) by (apply Qpower_0_lt; reflexivity).
  assert (Hstep : (2 ^ (e1 + 1) <= 2 ^ e2)%Q).
  { apply Qpower_le_compat_l; [lia|]. unfold Qle; simpl; lia. }
  rewrite Qpower_plus in Hstep by discriminate.
  change (2 ^ 1)%Q with 2%Q in Hstep.
  assert (Ha : (inject_Z (Zpos m1) < inject_Z (2 ^ 53)%Z)%Q)
    by (rewrite <- Zlt_Qlt; exact Hhi1).
  assert (Hb : (inject_Z (2 ^ 52)%Z <= inject_Z (Zpos m2))%Q)
    by (rewrite <- Zle_Qle; exact Hlo2).
  assert (E53 : (inject_Z (2 ^ 53)%Z == 2 * inject_Z (2 ^ 52)%Z)%Q)
    by reflexivity.
  assert (P52 : (0 < inject_Z (2 ^ 52)%Z)%Q) by reflexivity.
  set (a := inject_Z (Zpos m1)) in *. set (b := inject_Z (Zpos m2)) in *.
  set (c := inject_Z (2 ^ 52)%Z) in *. set (d := inject_Z (2 ^ 53)%Z) in *.
  set (p := (2 ^ e1)%Q) in *. set (q := (2 ^ e2)%Q) in *.
  assert (S1 : (a * p < d * p)%Q) by nra.
  assert (S2 : (c * (2 * p) <= c * q)%Q) by nra.
  assert (S3 : (c * q <= b * q)%Q) by nra.
  nra.
Qed.

Lemma exact_neg (m : positive) (e : Z) :
  (B64.exact true m e == - B64.exact false m e)%Q.
Proof. unfold B64.exact. ring. Qed.

Lemma Qcompare_Lt (a b : Q) : (a < b)%Q -> (a ?= b)%Q = Lt.
Proof. intros H. apply Qlt_alt. exact H. Qed.

Lemma Qcompare_Gt (a b : Q) : (b < a)%Q -> (a ?= b)%Q = Gt.
Proof. intros H. apply Qgt_alt. exact H. Qed.

Lemma Qcompare_Eq (a b : Q) : (a == b)%Q -> (a ?= b)%Q = Eq.
Proof. intros H. apply Qeq_alt. exact H. Qed.

Lemma compare_cont_Eq (p q : positive) :
  Pos.compare_cont Eq p q = Pos.compare p q.
Proof. reflexivity. Qed.

(** The comparison of two finite floats is the comparison of their exact
    values. *)
Lemma SFcompare_value (f g : spec_float) :
  valid_binary f = true -> valid_binary g = true ->
  B64.sf_finite f = true -> B64.sf_finite g = true ->
  SFcompare f g = Some (B64.value f ?= B64.value g)%Q.
Proof.
  intros Hf Hg Ff Fg.
  destruct f as [sf|sf| |sf mf ef]; try discriminate;
    destruct g as [sg|sg| |sg mg eg]; try discriminate;
    unfold SFcompare, B64.value; [reflexivity|..]; f_equal; symmetry.
  - destruct sg.
    + apply Qcompare_Gt. rewrite exact_neg. pose proof (exact_pos mg eg). lra.
    + apply Qcompare_Lt. apply exact_pos.
  - destruct sf.
    + apply Qcompare_Lt. rewrite exact_neg. pose proof (exact_pos mf ef). lra.
    + apply Qcompare_Gt. apply exact_pos.
  - pose proof (exact_pos mf ef) as Pf. pose proof (exact_pos mg eg) as Pg.
    destruct sf, sg.
    + rewrite !exact_neg.
      destruct (Z.compare_spec ef eg) as [He|He|He].
      * subst eg. rewrite compare_cont_Eq.
        destruct (Pos.compare_spec mf mg) as [Hm|Hm|Hm]; simpl CompOpp.
        -- subst mg. apply Qcompare_Eq. reflexivity.
        -- apply Qcompare_Gt.
           pose proof (exact_lt_man mf mg ef ltac:(lia)). lra.
        -- apply Qcompare_Lt.
           pose proof (exact_lt_man mg mf ef ltac:(lia)). lra.
      * apply Qcompare_Gt.
        pose proof (exact_lt_exp mf mg ef eg Hf Hg He). lra.
      * apply Qcompare_Lt.
        pose proof (exact_lt_exp mg mf eg ef Hg Hf He). lra.
    + apply Qcompare_Lt. rewrite exact_neg. lra.
    + apply Qcompare_Gt. rewrite exact_neg. lra.
    + destruct (Z.compare_spec ef eg) as [He|He|He].
      * subst eg. rewrite compare_cont_Eq.
        destruct (Pos.compare_spec mf mg) as [Hm|Hm|Hm].
        -- subst mg. apply Qcompare_Eq. reflexivity.
        -- apply Qcompare_Lt. apply exact_lt_man. lia.
        -- apply Qcompare_Gt. apply exact_lt_man. lia.
      * apply Qcompare_Lt. apply (exact_lt_exp mf mg ef eg Hf Hg He).
      * apply Qcompare_Gt. apply (exact_lt_exp mg mf eg ef Hg Hf He).
Qed.


Lemma ltb_value (x y : float) :
  B64.sf_finite (Prim2SF x) = true -> B64.sf_finite (Prim2SF y) = true ->
  (x <? y)%float = true <-> (B64.to_Q x < B64.to_Q y)%Q.
Proof.
  intros Fx Fy. rewrite FloatAxioms.ltb_spec. unfold SFltb, B64.to_Q.
  rewrite (SFcompare_value _ _ (Prim2SF_valid x) (Prim2SF_valid y) Fx Fy).
  destruct (B64.value (Prim2SF x) ?= B64.value (Prim2SF y))%Q eqn:E.
  - apply Qeq_alt in E. split; [discriminate|intros H; lra].
  - apply Qlt_alt in E. split; [intros _; lra|reflexivity].
  - apply Qgt_alt in E. split; [discriminate|intros H; lra].
Qed.


(** *** [round3] is monotone *)








(** C5. In binary64, whatever the summation: on a landmark list that reaches
    index 291 the scorer returns; the value it rounds (the clamped raw score,
    or 0.0 behind the openness gate) lies in [0, 1]; the score is that value
    rounded to 3 decimals: it is the float quotient [k / 1000] where the
    integer [k], between 0 and 1000, is nearest to 1000 times the exact value
    of the raw score, the even one on a tie; and the score lies in [0, 1]. *)
Theorem score_bounded_and_rounded
  (sum : list float -> float) (lm : list (Landmark.t float)) rest :
  (MOUTH_CORNERS_RIGHT < length lm)%nat ->
  exists lc rc u l raw score k,
    index lm MOUTH_CORNERS_LEFT = Ok lc /\
    index lm MOUTH_CORNERS_RIGHT = Ok rc /\
    upper_y (PF := binary64 sum) lm = Ok u /\
    lower_y (PF := binary64 sum) lm = Ok l /\
    raw = (if (0.08 <? l - u)%float then 0%float
           else raw_score (PF := binary64 sum) (center_y (PF := binary64 sum) u l)
                  (Landmark.y lc) (Landmark.y rc)) /\
    calculate_smile_score (PF := binary64 sum) (mkResult (Some (lm :: rest)))
    = Ok score /\
    score = B64.round3 raw /\
    ((0 <=? raw)%float = true /\ (raw <=? 1)%float = true) /\
    ((0 <=? score)%float = true /\ (score <=? 1)%float = true) /\
    (0 <= k <= 1000)%Z /\ score = (B64.of_Z k / 1000)%float /\
    (inject_Z k - (1 # 2) <= 1000 * B64.to_Q raw <= inject_Z k + (1 # 2))%Q /\
    ((1000 * B64.to_Q raw == inject_Z k + (1 # 2))%Q \/
     (1000 * B64.to_Q raw == inject_Z k - (1 # 2))%Q -> Z.even k = true).
Proof.
  intros Hlen.
  destruct (lookups_ok (PF := binary64 sum) lm Hlen)
    as (lc & rc & u & l & Hlc & Hrc & Hu & Hl).
  set (raw := if (0.08 <? l - u)%float then 0%float
              else raw_score (PF := binary64 sum)
                     (center_y (PF := binary64 sum) u l)
                     (Landmark.y lc) (Landmark.y rc)).
  assert (Hraw : raw = 0%float \/ raw = 1%float \/
                 ((0 <? raw)%float = true /\ (raw <? 1)%float = true)).
  { subst raw. destruct (0.08 <? l - u)%float; [left; reflexivity|].
    apply raw_score_binary64. }
  destruct (round3_clamped raw Hraw) as (k & Hk & Hnear & Htie & Hround).
  pose proof (thousandth_ok_range k Hk) as Hok.
  unfold B64.thousandth_ok in Hok.
  apply andb_prop in Hok as [Hok Heq]. apply andb_prop in Hok as [H0 H1].
  apply Leibniz.eqb_spec in Heq.
  assert (Hscore : calculate_smile_score (PF := binary64 sum)
                     (mkResult (Some (lm :: rest))) = Ok (B64.round3 raw)).
  { rewrite (calculate_face (PF := binary64 sum) lm rest lc rc u l Hlc Hrc Hu Hl).
    replace (mouth_height u l >? lit 0.08)%py with (0.08 <? l - u)%float
      by reflexivity.
    subst raw. destruct (0.08 <? l - u)%float; reflexivity. }
  pose proof (unit_binary64 raw Hraw) as Hunit.
  exists lc, rc, u, l, raw, (B64.round3 raw), k.
  split; [exact Hlc|]. split; [exact Hrc|]. split; [exact Hu|].
  split; [exact Hl|]. split; [reflexivity|]. split; [exact Hscore|].
  split; [reflexivity|]. split; [exact Hunit|].
  rewrite Hround. split; [split; assumption|]. split; [exact Hk|].
  split; [exact Heq|]. split; [exact Hnear|exact Htie].
Qed.

Lemma score_bounded_and_rounded_witness :
  exists lc rc u l raw score k,
    index (smiling (PF := binary64 B64.sum_left)) MOUTH_CORNERS_LEFT = Ok lc /\
    index (smiling (PF := binary64 B64.sum_left)) MOUTH_CORNERS_RIGHT = Ok rc /\
    upper_y (PF := binary64 B64.sum_left)
      (smiling (PF := binary64 B64.sum_left)) = Ok u /\
    lower_y (PF := binary64 B64.sum_left)
      (smiling (PF := binary64 B64.sum_left)) = Ok l /\
    raw = (if (0.08 <? l - u)%float then 0%float
           else raw_score (PF := binary64 B64.sum_left)
                  (center_y (PF := binary64 B64.sum_left) u l)
                  (Landmark.y lc) (Landmark.y rc)) /\
    calculate_smile_score (PF := binary64 B64.sum_left)
      (mkResult (Some [smiling (PF := binary64 B64.sum_left)]))
    = Ok score /\
    score = B64.round3 raw /\
    ((0 <=? raw)%float = true /\ (raw <=? 1)%float = true) /\
    ((0 <=? score)%float = true /\ (score <=? 1)%float = true) /\
    (0 <= k <= 1000)%Z /\ score = (B64.of_Z k / 1000)%float /\
    (inject_Z k - (1 # 2) <= 1000 * B64.to_Q raw <= inject_Z k + (1 # 2))%Q /\
    ((1000 * B64.to_Q raw == inject_Z k + (1 # 2))%Q \/
     (1000 * B64.to_Q raw == inject_Z k - (1 # 2))%Q -> Z.even k = true).
Proof.
  apply (score_bounded_and_rounded B64.sum_left
           (smiling (PF := binary64 B64.sum_left)) []).
  apply Nat.ltb_lt. vm_compute. reflexivity.
Defined.

End Binary64Score.

(** * Further properties of the scorer *)

Section ScorerBounds.
Context {F : Type} {PF : PyFloat F}.

Lemma index_ge {A} (l : list A) (i : nat) :
  (length l <= i)%nat ->
  index l i = Raise (mkExc IndexError "list index out of range").
Proof.
  intros Hi. unfold index. rewrite (lookup_ge_None_2 l i Hi). reflexivity.
Qed.

(** X1. On a detected face the scorer raises [IndexError] exactly when the
    first landmark list has at most 291 points, and returns a score
    otherwise. *)
Theorem short_landmark_list_raises (lm : list (Landmark.t F)) rest :
  (calculate_smile_score (mkResult (Some (lm :: rest)))
   = Raise (mkExc IndexError "list index out of range")
   <-> (length lm <= MOUTH_CORNERS_RIGHT)%nat) /\
  ((exists score, calculate_smile_score (mkResult (Some (lm :: rest))) = Ok score)
   <-> (MOUTH_CORNERS_RIGHT < length lm)%nat).
Proof.
  assert (Hlong : (MOUTH_CORNERS_RIGHT < length lm)%nat ->
                  exists score,
                    calculate_smile_score (mkResult (Some (lm :: rest))) = Ok score).
  { intros Hlen. destruct (lookups_ok lm Hlen)
      as (lc & rc & u & l & Hlc & Hrc & Hu & Hl).
    rewrite (calculate_face lm rest lc rc u l Hlc Hrc Hu Hl).
    destruct (mouth_height u l >? lit 0.08)%py; eauto. }
  assert (Hshort : (length lm <= MOUTH_CORNERS_RIGHT)%nat ->
                   calculate_smile_score (mkResult (Some (lm :: rest)))
                   = Raise (mkExc IndexError "list index out of range")).
  { intros Hlen. unfold calculate_smile_score. simpl. unfold_bind.
    rewrite (index_ge lm MOUTH_CORNERS_RIGHT Hlen).
    unfold index. destruct (lm !! MOUTH_CORNERS_LEFT); reflexivity. }
  split; split.
  - intros Hraise. destruct (Nat.le_gt_cases (length lm) MOUTH_CORNERS_RIGHT)
      as [Hle|Hgt]; [exact Hle|].
    destruct (Hlong Hgt) as [score Hs]. congruence.
  - exact Hshort.
  - intros [score Hs]. destruct (Nat.le_gt_cases (length lm) MOUTH_CORNERS_RIGHT)
      as [Hle|Hgt]; [|exact Hgt].
    rewrite (Hshort Hle) in Hs. discriminate.
  - exact Hlong.
Qed.
End ScorerBounds.

Section Frame.
Context {F : Type} {PF : PyFloat F}.

Lemma same_y_index (lm lm' : list (Landmark.t F)) (i : nat) :
  same_y lm lm' i ->
  (index lm i = Raise (mkExc IndexError "list index out of range") /\
   index lm' i = Raise (mkExc IndexError "list index out of range")) \/
  exists p p', index lm i = Ok p /\ index lm' i = Ok p' /\
               Landmark.y p = Landmark.y p'.
Proof.
  unfold same_y, index.
  destruct (lm !! i) as [p|]; destruct (lm' !! i) as [p'|]; simpl;
    intros H; try discriminate.
  - right. exists p, p'. injection H as H. auto.
  - left. auto.
Qed.

Lemma same_y_ys_at (lm lm' : list (Landmark.t F)) (idx : list nat) :
  Forall (same_y lm lm') idx -> ys_at lm idx = ys_at lm' idx.
Proof.
  induction 1 as [|i idx Hi _ IH]; [reflexivity|]. simpl. unfold_bind.
  destruct (same_y_index lm lm' i Hi)
    as [[-> ->]|(p & p' & -> & -> & Hy)]; [reflexivity|].
  rewrite IH, Hy. reflexivity.
Qed.

(** X2. The score depends on nothing but the heights of the eleven points
    of [scored_points]: two landmark lists that agree on them (or lack the
    same ones) get the same outcome, whatever their other points and
    coordinates. *)
Theorem score_reads_eleven_heights
  (lm lm' : list (Landmark.t F)) (rest rest' : list (list (Landmark.t F))) :
  Forall (same_y lm lm') scored_points ->
  calculate_smile_score (mkResult (Some (lm :: rest)))
  = calculate_smile_score (mkResult (Some (lm' :: rest'))).
Proof.
  unfold scored_points. intros Hall.
  apply Forall_cons in Hall as [Hleft Hall].
  apply Forall_cons in Hall as [Hright Hall].
  apply Forall_app in Hall as [Hupper Hlower].
  unfold calculate_smile_score. simpl face_landmarks. cbv iota.
  unfold upper_y, lower_y, mean5.
  rewrite (same_y_ys_at lm lm' _ Hupper), (same_y_ys_at lm lm' _ Hlower).
  unfold_bind.
  destruct (same_y_index lm lm' _ Hleft)
    as [[-> ->]|(lc & lc' & -> & -> & Hl)]; [reflexivity|].
  destruct (same_y_index lm lm' _ Hright)
    as [[-> ->]|(rc & rc' & -> & -> & Hr)]; [reflexivity|].
  rewrite Hl, Hr. reflexivity.
Qed.
End Frame.

Lemma score_reads_eleven_heights_witness :
  calculate_smile_score (PF := exactQ) (mkResult (Some [smiling]))
  = calculate_smile_score (PF := exactQ) (mkResult (Some [smiling_elsewhere])).
Proof.
  apply (score_reads_eleven_heights (PF := exactQ) smiling smiling_elsewhere [] []).
  unfold scored_points. simpl. repeat constructor.
Defined.

(** ** The right corner *)

Section RightCorner.

Lemma ys_at_insert_other {F : Type} (lm : list (Landmark.t F)) (j : nat) p idx :
  j ∉ idx -> ys_at (<[j := p]> lm) idx = ys_at lm idx.
Proof.
  induction idx as [|i idx IH]; [reflexivity|].
  intros Hnot. apply not_elem_of_cons in Hnot as [Hne Hnot]. simpl.
  rewrite index_insert_ne by congruence. rewrite IH by assumption.
  reflexivity.
Qed.

Ltac not_in_list :=
  simpl; repeat (apply not_elem_of_cons; split; [discriminate|]);
  apply not_elem_of_nil.

(** Index 291 is the last upper-lip point, not one of the five sampled: the
    means and the left corner do not see the right corner. *)
Lemma raise_right_corner_means {F : Type} {PF : PyFloat F} (d : F)
  (lm : list (Landmark.t F)) :
  upper_y (raise_right_corner d lm) = upper_y lm /\
  lower_y (raise_right_corner d lm) = lower_y lm /\
  index (raise_right_corner d lm) MOUTH_CORNERS_LEFT
  = index lm MOUTH_CORNERS_LEFT.
Proof.
  unfold raise_right_corner.
  destruct (lm !! MOUTH_CORNERS_RIGHT) as [p|]; [|auto].
  unfold upper_y, lower_y, mean5.
  rewrite !ys_at_insert_other by not_in_list.
  split; [reflexivity|]. split; [reflexivity|].
  apply index_insert_ne. discriminate.
Qed.

Lemma raise_right_corner_right {F : Type} {PF : PyFloat F} (d : F)
  (lm : list (Landmark.t F)) p :
  index lm MOUTH_CORNERS_RIGHT = Ok p ->
  index (raise_right_corner d lm) MOUTH_CORNERS_RIGHT
  = Ok (Landmark.mk (Landmark.x p) (Landmark.y p - d)%py (Landmark.z p)).
Proof.
  intros Hp. unfold raise_right_corner.
  rewrite (index_Ok_lookup _ _ _ Hp). eapply index_insert_eq; eauto.
Qed.
End RightCorner.

(** ** Binary64: a NaN centre *)

Section NaN.

Lemma is_nan_Prim2SF (x : float) :
  is_nan x = true -> Prim2SF x = S754_nan.
Proof.
  unfold is_nan. rewrite FloatAxioms.eqb_spec, negb_true_iff.
  destruct (Prim2SF x) as [s|s| |s m e]; unfold SFeqb, SFcompare.
  - discriminate.
  - destruct s; discriminate.
  - reflexivity.
  - rewrite Z.compare_refl.
    change (Pos.compare_cont Eq m m) with (Pos.compare m m).
    rewrite Pos.compare_refl. destruct s; discriminate.
Qed.

(** Nothing is below a NaN difference: the elevation under a NaN centre
    is 0. *)
Lemma nan_elevation (sum : list float -> float) (c y : float) :
  is_nan c = true ->
  py_max (PF := binary64 sum) (@lit float (binary64 sum) 0)
    (@fsub float (binary64 sum) c y) = 0%float.
Proof.
  intros Hc. unfold py_max. cbn [lit fgt fsub binary64].
  replace (B64.of_Q 0) with 0%float by (vm_compute; reflexivity).
  rewrite FloatAxioms.ltb_spec, FloatAxioms.sub_spec, (is_nan_Prim2SF c Hc).
  replace (Prim2SF 0) with (S754_zero false) by reflexivity.
  reflexivity.
Qed.

(** X9. In binary64, whatever the summation: when the mouth centre is NaN
    (as it is when a sampled lip height is NaN) the scorer neither raises nor
    returns NaN: the score is 0.0. *)
Theorem nan_centre_scores_zero
  (sum : list float -> float) (lm : list (Landmark.t float)) rest
  (lc rc : Landmark.t float) (u l : float) :
  index lm MOUTH_CORNERS_LEFT = Ok lc ->
  index lm MOUTH_CORNERS_RIGHT = Ok rc ->
  upper_y (PF := binary64 sum) lm = Ok u ->
  lower_y (PF := binary64 sum) lm = Ok l ->
  is_nan (center_y (PF := binary64 sum) u l) = true ->
  calculate_smile_score (PF := binary64 sum) (mkResult (Some (lm :: rest)))
  = Ok 0%float.
Proof.
  intros Hlc Hrc Hu Hl Hnan.
  rewrite (calculate_face (PF := binary64 sum) lm rest lc rc u l Hlc Hrc Hu Hl).
  destruct (mouth_height u l >? lit 0.08)%py; [vm_compute; reflexivity|].
  unfold raw_score.
  rewrite (nan_elevation sum _ (Landmark.y lc) Hnan).
  rewrite (nan_elevation sum _ (Landmark.y rc) Hnan).
  vm_compute. reflexivity.
Qed.
End NaN.

Lemma nan_centre_scores_zero_witness :
  calculate_smile_score (PF := binary64 B64.sum_left)
    (mkResult (Some [nan_mouth])) = Ok 0%float.
Proof.
  apply (nan_centre_scores_zero B64.sum_left nan_mouth []
           (Landmark.mk 0%float 0.5%float 0%float)
           (Landmark.mk 0%float 0.5%float 0%float) 0.5%float nan);
    vm_compute; reflexivity.
Defined.

(** * Further properties of the handlers *)

(** ** The data URL *)

Lemma prefix_comma (c : ascii) (s : string) :
  String.prefix "," (String c s) = Ascii.eqb c ",".
Proof.
  change (String.prefix "," (String c s))
    with (match ascii_dec "," c with
          | left _ => String.prefix "" s
          | right _ => false
          end).
  destruct (ascii_dec "," c) as [<-|Hne].
  - destruct s; reflexivity.
  - symmetry. apply Ascii.eqb_neq. congruence.
Qed.

Lemma is_substring_comma_cons (c : ascii) (s : string) :
  is_substring "," (String c s)
  = if Ascii.eqb c "," then true else is_substring "," s.
Proof.
  change (is_substring "," (String c s))
    with (if String.prefix "," (String c s) then true else is_substring "," s).
  rewrite prefix_comma. reflexivity.
Qed.

(** What [s.split(",", 1)] returns. *)
Lemma split_comma_cases (s : string) :
  (is_substring "," s = false /\ split_comma s = [s]) \/
  (exists prefix encoded,
     split_comma s = [prefix; encoded] /\
     s = prefix +:+ "," +:+ encoded /\
     is_substring "," prefix = false).
Proof.
  induction s as [|c s IH].
  - left. split; reflexivity.
  - rewrite is_substring_comma_cons. simpl split_comma.
    destruct (Ascii.eqb_spec c ",") as [->|Hc].
    + right. exists "", s. repeat split; reflexivity.
    + destruct IH as [[Hno ->]|(prefix & encoded & -> & -> & Hno)].
      * left. split; [exact Hno|reflexivity].
      * right. exists (String c prefix), encoded.
        split; [reflexivity|]. split; [reflexivity|].
        rewrite is_substring_comma_cons.
        destruct (Ascii.eqb_spec c ","); [contradiction|exact Hno].
Qed.

(** X12. [_, encoded = s.split(",", 1)]: when [s] has a comma the two parts
    put back around a comma give [s], the first part has no comma, and
    [encoded] is all that follows the first comma; when [s] has none the
    unpacking raises [ValueError]. *)
Theorem data_url_split (s : string) :
  match unpack2 (split_comma s) with
  | Ok (prefix, encoded) =>
      s = prefix +:+ "," +:+ encoded /\ is_substring "," prefix = false
  | Raise e => exc_class e = ValueError /\ is_substring "," s = false
  end.
Proof.
  destruct (split_comma_cases s) as [[Hno ->]|(prefix & encoded & -> & Hs & Hno)].
  - simpl. auto.
  - simpl. auto.
Qed.

Lemma is_substring_join (prefix encoded : string) :
  is_substring "," (prefix +:+ "," +:+ encoded) = true.
Proof.
  induction prefix as [|c prefix IH].
  - change ("" +:+ "," +:+ encoded) with (String "," encoded).
    rewrite is_substring_comma_cons. reflexivity.
  - change (String c prefix +:+ "," +:+ encoded)
      with (String c (prefix +:+ "," +:+ encoded)).
    rewrite is_substring_comma_cons, IH. destruct (Ascii.eqb c ","); reflexivity.
Qed.

Lemma split_comma_join (prefix encoded : string) :
  is_substring "," prefix = false ->
  split_comma (prefix +:+ "," +:+ encoded) = [prefix; encoded].
Proof.
  induction prefix as [|c prefix IH]; intros Hno.
  - reflexivity.
  - rewrite is_substring_comma_cons in Hno.
    change (String c prefix +:+ "," +:+ encoded)
      with (String c (prefix +:+ "," +:+ encoded)).
    simpl split_comma. destruct (Ascii.eqb c ","); [discriminate|].
    rewrite (IH Hno). reflexivity.
Qed.

(** ** [manual_capture] and [predict_smile] on the same request *)

Section Handlers.
Context {F : Type} {PF : PyFloat F}.
Variables Bytes NDArray MPImage : Type.
Variable b64decode : string -> result Bytes.
Variable frombuffer : Bytes -> result NDArray.
Variable imdecode : NDArray -> result (option NDArray).
Variable flip : NDArray -> result NDArray.
Variable cvtColor : NDArray -> result NDArray.
Variable mp_Image : NDArray -> result MPImage.
Variable detect : MPImage -> result (FaceLandmarkerResult F).

Abbreviation predict :=
  (predict_smile Bytes NDArray MPImage b64decode frombuffer imdecode flip
     cvtColor mp_Image detect).
Abbreviation predict_try :=
  (predict_smile_try Bytes NDArray MPImage b64decode frombuffer imdecode flip
     cvtColor mp_Image detect).
Abbreviation capture :=
  (manual_capture Bytes NDArray b64decode frombuffer imdecode).
Abbreviation capture_try :=
  (manual_capture_try Bytes NDArray b64decode frombuffer imdecode).

Abbreviation image_decoded :=
  (decoded_image Bytes NDArray b64decode frombuffer imdecode).

(** The two [try] blocks run the same steps up to the decoded image. *)
Lemma capture_try_cases (get_json : result json) :
  (exists e, capture_try get_json = Raise e /\ predict_try get_json = Raise e) \/
  (capture_try get_json = Ok (CaptureError "No image data", 400) /\
   predict_try get_json = Ok (ErrorBody "No image data", 400)) \/
  (capture_try get_json = Ok (CaptureError "Failed to decode image", 400) /\
   predict_try get_json = Ok (ErrorBody "Decode failed", 400)) \/
  (capture_try get_json = Ok (CaptureOk, 200) /\ image_decoded get_json /\
   ((exists e, predict_try get_json = Raise e) \/
    (exists smile score, predict_try get_json = Ok (SmileBody smile score, 200)))).
Proof.
  unfold manual_capture_try, predict_smile_try.
  destruct get_json as [data|e]; [|left; eexists; split; reflexivity].
  unfold_bind.
  destruct (py_in "image" data) as [[|]|e] eqn:Hin; simpl;
    [|right; left; split; reflexivity|left; eexists; split; reflexivity].
  destruct (getitem data "image") as [image|e] eqn:Hget;
    [|left; eexists; split; reflexivity].
  destruct (split image) as [parts|e] eqn:Hsplit;
    [|left; eexists; split; reflexivity].
  destruct parts as [|prefix [|encoded [|? ?]]]; simpl;
    try (left; eexists; split; reflexivity).
  destruct (b64decode encoded) as [img_data|e] eqn:Hb64;
    [|left; eexists; split; reflexivity].
  destruct (frombuffer img_data) as [nparr|e] eqn:Hbuf;
    [|left; eexists; split; reflexivity].
  destruct (imdecode nparr) as [[img|]|e] eqn:Hdec;
    [|right; right; left; split; reflexivity
     |left; eexists; split; reflexivity].
  right; right; right. split; [reflexivity|]. split.
  { exists data, image, prefix, encoded, img_data, nparr, img.
    repeat split; assumption. }
  destruct (flip img) as [flipped|e]; [|left; eexists; reflexivity].
  destruct (cvtColor flipped) as [img_rgb|e]; [|left; eexists; reflexivity].
  destruct (mp_Image img_rgb) as [mp_image|e]; [|left; eexists; reflexivity].
  destruct (detect mp_image) as [det|e]; [|left; eexists; reflexivity].
  destruct (smile_result det) as [[score smile]|e];
    [|left; eexists; reflexivity].
  right. exists smile, score. reflexivity.
Qed.

(** X10. Whatever the collaborators do, [manual_capture] returns a response:
    an error body with status 400 or 500, or [{"ok": true}] with status 200,
    and the latter exactly when the image was found in the body, split,
    decoded from base64 and decoded as an image. *)
Theorem capture_accepts_decoded_images (get_json : result json) :
  match capture get_json with
  | (CaptureError _, status) =>
      (status = 400 \/ status = 500) /\ ~ image_decoded get_json
  | (CaptureOk, status) => status = 200 /\ image_decoded get_json
  end.
Proof.
  unfold manual_capture.
  destruct (capture_try_cases get_json)
    as [(e & Hc & _)|[[Hc _]|[[Hc _]|(Hc & Hdec & _)]]];
    rewrite Hc; simpl; [| | |auto];
    (split; [auto|]);
    intros (data & image & prefix & encoded & img_data & nparr & img
            & -> & Hin & Hget & Hsplit & Hb64 & Hbuf & Hdec);
    unfold manual_capture_try in Hc; unfold_bind;
    rewrite Hin in Hc; simpl in Hc; rewrite Hget, Hsplit in Hc; simpl in Hc;
    rewrite Hb64, Hbuf, Hdec in Hc; discriminate.
Qed.

(** X11. [manual_capture] and [predict_smile] agree on a request: a request
    that [manual_capture] answers with status 400 or 500 gets the same status
    from [predict_smile], with the same message (up to the wording of the
    decode failure); a frame that [manual_capture] accepts is never answered
    400 by [predict_smile]. *)
Theorem capture_agrees_with_predict (get_json : result json) :
  match capture get_json, predict get_json with
  | (CaptureError msg, status), (ErrorBody msg', status') =>
      status' = status /\
      (msg' = msg \/
       (status = 400 /\ msg = "Failed to decode image" /\ msg' = "Decode failed"))
  | (CaptureError _, _), (SmileBody _ _, _) => False
  | (CaptureOk, _), (_, status') => status' = 200 \/ status' = 500
  end.
Proof.
  unfold manual_capture, predict_smile.
  destruct (capture_try_cases get_json)
    as [(e & -> & ->)|[[-> ->]|[[-> ->]|(-> & _ & [[e ->]|(sm & sc & ->)])]]];
    simpl; auto.
Qed.

Abbreviation steps_ok :=
  (decoded_and_detected Bytes NDArray MPImage b64decode frombuffer imdecode
     flip cvtColor mp_Image detect).

(** When every step returns, the handler answers with what the scorer
    gives. *)
Lemma predict_try_steps_ok (get_json : result json) det :
  steps_ok get_json det ->
  predict_try get_json =
  match smile_result det with
  | Ok (score, smile) => Ok (SmileBody smile score, 200)
  | Raise e => Raise e
  end.
Proof.
  intros (data & image & prefix & encoded & img_data & nparr & img & flipped
          & img_rgb & mp_image & -> & Hin & Hget & Hsplit & Hb64 & Hbuf
          & Hdec & Hflip & Hcvt & Hmp & Hdet).
  unfold predict_smile_try. unfold_bind.
  rewrite Hin. simpl. rewrite Hget, Hsplit. simpl.
  rewrite Hb64, Hbuf, Hdec, Hflip, Hcvt, Hmp, Hdet.
  destruct (smile_result det) as [[score smile]|e]; reflexivity.
Qed.

Lemma calculate_short_list (lm : list (Landmark.t F)) rest :
  (length lm <= MOUTH_CORNERS_RIGHT)%nat ->
  calculate_smile_score (mkResult (Some (lm :: rest)))
  = Raise (mkExc IndexError "list index out of range").
Proof.
  intros Hlen. unfold calculate_smile_score. simpl. unfold_bind.
  rewrite (index_ge lm MOUTH_CORNERS_RIGHT Hlen).
  unfold index. destruct (lm !! MOUTH_CORNERS_LEFT); reflexivity.
Qed.

(** X15. A detected face whose landmark list stops before index 291 makes
    [/predict] answer 500 with the [IndexError] message, although decoding
    and detection succeeded. *)
Theorem truncated_landmarks_answer_500 (get_json : result json) det lm rest :
  steps_ok get_json det ->
  face_landmarks det = Some (lm :: rest) ->
  (length lm <= MOUTH_CORNERS_RIGHT)%nat ->
  predict get_json = (ErrorBody "list index out of range", 500).
Proof.
  intros Hsteps Hfaces Hlen. unfold predict_smile.
  rewrite (predict_try_steps_ok get_json det Hsteps).
  unfold smile_result. destruct det as [faces]. simpl in Hfaces. subst faces.
  rewrite (calculate_short_list lm rest Hlen). reflexivity.
Qed.

(** X13. The handlers read one thing of a JSON object: the text after the
    first comma of its ["image"] string.  Two objects whose image strings
    carry the same text after their first comma get the same answer,
    whatever precedes the comma and whatever other fields they have. *)
Theorem only_the_payload_is_read
  (m m' : gmap string json) (prefix prefix' encoded : string) :
  m !! "image" = Some (JStr (prefix +:+ "," +:+ encoded)) ->
  m' !! "image" = Some (JStr (prefix' +:+ "," +:+ encoded)) ->
  is_substring "," prefix = false ->
  is_substring "," prefix' = false ->
  predict (Ok (JObj m)) = predict (Ok (JObj m')) /\
  capture (Ok (JObj m)) = capture (Ok (JObj m')).
Proof.
  intros Hm Hm' Hno Hno'.
  unfold predict_smile, predict_smile_try, manual_capture, manual_capture_try.
  unfold_bind. unfold py_in, getitem. rewrite Hm, Hm'.
  rewrite !bool_decide_eq_true_2 by eauto. simpl negb. cbv iota.
  unfold split. rewrite (split_comma_join prefix encoded Hno).
  rewrite (split_comma_join prefix' encoded Hno'). split; reflexivity.
Qed.

(** X14. An ["image"] field that is not a string, or is a string without a
    comma, is answered 500 by both handlers, with the message of the
    [AttributeError] or [ValueError], before any collaborator is called. *)
Theorem malformed_image_field (m : gmap string json) (v : json) :
  m !! "image" = Some v ->
  match v with
  | JStr s => is_substring "," s = false
  | _ => True
  end ->
  exists e,
    (exc_class e = AttributeError \/ exc_class e = ValueError) /\
    predict (Ok (JObj m)) = (ErrorBody (exc_msg e), 500) /\
    capture (Ok (JObj m)) = (CaptureError (exc_msg e), 500).
Proof.
  intros Hm Hv.
  unfold predict_smile, predict_smile_try, manual_capture, manual_capture_try.
  unfold_bind. unfold py_in, getitem. rewrite Hm.
  rewrite !bool_decide_eq_true_2 by eauto. simpl negb. cbv iota.
  destruct v as [| b | n | q | s | l | o];
    try (eexists; refine (conj _ (conj eq_refl eq_refl)); left; reflexivity).
  unfold split. destruct (split_comma_cases s)
    as [[_ ->]|(prefix & encoded & _ & -> & Hno)].
  - eexists. refine (conj _ (conj eq_refl eq_refl)). right. reflexivity.
  - rewrite is_substring_join in Hv. discriminate.
Qed.
End Handlers.

Lemma only_the_payload_is_read_witness :
  sample_predict (PF := exactQ) (mkResult None) (Ok sample_request)
  = sample_predict (PF := exactQ) (mkResult None) (Ok other_request) /\
  sample_capture (Ok sample_request) = sample_capture (Ok other_request).
Proof.
  apply (only_the_payload_is_read (PF := exactQ) unit unit unit
           (fun _ => Ok ()) (fun _ => Ok ()) (fun _ => Ok (Some ()))
           (fun _ => Ok ()) (fun _ => Ok ()) (fun _ => Ok ())
           (fun _ => Ok (mkResult None))
           {[ "image" := JStr "data:image/png;base64,AAAA" ]}
           {[ "image" := JStr "x,AAAA"; "camera" := JStr "front" ]}
           "data:image/png;base64" "x" "AAAA");
    vm_compute; reflexivity.
Defined.

Lemma malformed_image_field_witness :
  exists e,
    (exc_class e = AttributeError \/ exc_class e = ValueError) /\
    sample_predict (PF := exactQ) (mkResult None)
      (Ok (JObj {[ "image" := JInt 3 ]}))
    = (ErrorBody (exc_msg e), 500) /\
    sample_capture (Ok (JObj {[ "image" := JInt 3 ]}))
    = (CaptureError (exc_msg e), 500).
Proof.
  apply (malformed_image_field (PF := exactQ) unit unit unit
           (fun _ => Ok ()) (fun _ => Ok ()) (fun _ => Ok (Some ()))
           (fun _ => Ok ()) (fun _ => Ok ()) (fun _ => Ok ())
           (fun _ => Ok (mkResult None))
           {[ "image" := JInt 3 ]} (JInt 3)).
  - vm_compute. reflexivity.
  - exact I.
Defined.

Lemma truncated_landmarks_answer_500_witness :
  sample_predict (PF := exactQ) (mkResult (Some [[]])) (Ok sample_request)
  = (ErrorBody "list index out of range", 500).
Proof.
  apply (truncated_landmarks_answer_500 (PF := exactQ) unit unit unit
           (fun _ => Ok ()) (fun _ => Ok ()) (fun _ => Ok (Some ()))
           (fun _ => Ok ()) (fun _ => Ok ()) (fun _ => Ok ())
           (fun _ => Ok (mkResult (Some [[]])))
           (Ok sample_request) (mkResult (Some [[]])) [] []).
  - exists sample_request, (JStr "data:image/png;base64,AAAA"),
      "data:image/png;base64", "AAAA", (), (), (), (), (), ().
    repeat split; vm_compute; reflexivity.
  - reflexivity.
  - simpl. unfold MOUTH_CORNERS_RIGHT. lia.
Defined.

Section HandlersBinary64.
Variable sum : list float -> float.
Variables Bytes NDArray MPImage : Type.
Variable b64decode : string -> result Bytes.
Variable frombuffer : Bytes -> result NDArray.
Variable imdecode : NDArray -> result (option NDArray).
Variable flip : NDArray -> result NDArray.
Variable cvtColor : NDArray -> result NDArray.
Variable mp_Image : NDArray -> result MPImage.
Variable detect : MPImage -> result (FaceLandmarkerResult float).

(** X16. A frame in which no face is found is not an error: when decoding
    and detection succeed and the detector reports no landmark set,
    [/predict] answers 200 with [smile] false and score 0.0 (binary64,
    whatever the summation). *)
Theorem no_face_answers_200 (get_json : result json) det :
  decoded_and_detected Bytes NDArray MPImage b64decode frombuffer imdecode
    flip cvtColor mp_Image detect get_json det ->
  face_landmarks det = None \/ face_landmarks det = Some [] ->
  predict_smile (PF := binary64 sum) Bytes NDArray MPImage b64decode
    frombuffer imdecode flip cvtColor mp_Image detect get_json
  = (SmileBody false 0%float, 200).
Proof.
  intros Hsteps Hfaces. unfold predict_smile.
  rewrite (predict_try_steps_ok (PF := binary64 sum) _ _ _ _ _ _ _ _ _ _
             get_json det Hsteps).
  destruct det as [faces]. simpl in Hfaces.
  destruct Hfaces as [-> | ->]; vm_compute; reflexivity.
Qed.
End HandlersBinary64.

Lemma no_face_answers_200_witness :
  sample_predict (PF := binary64 B64.sum_left) (mkResult (Some []))
    (Ok sample_request)
  = (SmileBody false 0%float, 200).
Proof.
  apply (no_face_answers_200 B64.sum_left unit unit unit
           (fun _ => Ok ()) (fun _ => Ok ()) (fun _ => Ok (Some ()))
           (fun _ => Ok ()) (fun _ => Ok ()) (fun _ => Ok ())
           (fun _ => Ok (mkResult (Some [])))
           (Ok sample_request) (mkResult (Some []))).
  - exists sample_request, (JStr "data:image/png;base64,AAAA"),
      "data:image/png;base64", "AAAA", (), (), (), (), (), ().
    repeat split; vm_compute; reflexivity.
  - right. reflexivity.
Defined.
